(** * mail-whisperer-next: recipient list, spreadsheet import, attachments

    A shallow embedding of the logic of
      - src/components/RecipientsManager.tsx (manual add / remove / clear all,
        and, in the variant with spreadsheet import, handleExcelImport),
      - src/components/ContactForm.tsx (the parent form that owns the
        recipient list, the staged attachments and the submit handler).

    Conventions.
      - A JavaScript string is a [string]; one [ascii] stands for one UTF-16
        code unit in the range 0..255.
      - A React state variable is a value captured by the handlers of one
        render (the closure snapshot) plus a store cell that the setter
        overwrites.  A handler created by a render keeps reading the
        snapshot of that render, whatever was written to the store since.
      - A child component does not touch the parent's state: it emits calls
        to the callbacks it received as props, and toasts.  These are
        recorded, in order, as a list of effects. *)

From Stdlib Require Import Bool List Arith Lia NArith.
From Stdlib Require Import Strings.Ascii Strings.String.
Import ListNotations.

Local Open Scope string_scope.
Local Open Scope list_scope.
Local Open Scope nat_scope.

(** ** JavaScript string primitives used by the components *)

Module Js.

(** ECMAScript WhiteSpace and LineTerminator code units below 256: TAB, LF,
    VT, FF, CR, SPACE and NBSP.  This is the set removed by
    [String.prototype.trim] and matched by the regex class [\s]. *)
Definition isWhiteSpace (c : ascii) : bool :=
  let n := nat_of_ascii c in
  ((9 <=? n) && (n <=? 13)) || (n =? 32) || (n =? 160).

Fixpoint trimStart (s : string) : string :=
  match s with
  | EmptyString => EmptyString
  | String c s' => if isWhiteSpace c then trimStart s' else s
  end.

Fixpoint trimEnd (s : string) : string :=
  match s with
  | EmptyString => EmptyString
  | String c s' =>
      match trimEnd s' with
      | EmptyString => if isWhiteSpace c then EmptyString else String c EmptyString
      | t => String c t
      end
  end.

(** [s.trim()] *)
Definition trim (s : string) : string := trimEnd (trimStart s).

(** Lower-casing of one code unit below 256: A-Z, and the Latin-1 capitals
    U+00C0..U+00DE except the multiplication sign U+00D7. *)
Definition toLowerCaseChar (c : ascii) : ascii :=
  let n := nat_of_ascii c in
  if ((65 <=? n) && (n <=? 90)) || ((192 <=? n) && (n <=? 222) && negb (n =? 215))
  then ascii_of_nat (n + 32)
  else c.

(** [s.toLowerCase()] *)
Fixpoint toLowerCase (s : string) : string :=
  match s with
  | EmptyString => EmptyString
  | String c s' => String (toLowerCaseChar c) (toLowerCase s')
  end.

(** Truthiness of a string value: every string but the empty one. *)
Definition truthy (s : string) : bool :=
  match s with
  | EmptyString => false
  | String _ _ => true
  end.

(** [arr.includes(x)] on an array of strings: strict equality. *)
Definition includes (arr : list string) (x : string) : bool :=
  existsb (String.eqb x) arr.

(** The spec's "empty or whitespace-only". *)
Fixpoint whitespaceOnly (s : string) : bool :=
  match s with
  | EmptyString => true
  | String c s' => isWhiteSpace c && whitespaceOnly s'
  end.

End Js.

(** ** A backtracking matcher for the regex fragment the code uses

    Both regex literals of the source are sequences of single-character
    classes and greedy bounded-below repetitions of a class ([c+] is
    [c{1,}]).  The matcher follows the ECMAScript backtracking order: a
    repetition first takes as many characters as it can and gives them back
    one at a time while the rest of the pattern fails. *)

Module Regex.

Inductive item : Type :=
| Chr (p : ascii -> bool)               (* one character of the class *)
| Rep (min : nat) (p : ascii -> bool).  (* class{min,}, greedy *)

Definition regex := list item.

Section Run.
Context {A : Type}.

(** class* followed by the continuation [k] *)
Fixpoint star (p : ascii -> bool) (k : string -> option A) (s : string)
  : option A :=
  match s with
  | EmptyString => k s
  | String c s' =>
      if p c then
        match star p k s' with
        | Some r => Some r
        | None => k s
        end
      else k s
  end.

Fixpoint atLeast (n : nat) (p : ascii -> bool) (k : string -> option A)
  (s : string) : option A :=
  match n with
  | O => star p k s
  | S n' =>
      match s with
      | EmptyString => None
      | String c s' => if p c then atLeast n' p k s' else None
      end
  end.

Fixpoint run (r : regex) (k : string -> option A) (s : string) : option A :=
  match r with
  | [] => k s
  | Chr p :: r' =>
      match s with
      | EmptyString => None
      | String c s' => if p c then run r' k s' else None
      end
  | Rep n p :: r' => atLeast n p (run r' k) s
  end.
End Run.

(** End-of-input assertion [$] as the last continuation. *)
Definition atEnd (s : string) : option unit :=
  match s with
  | EmptyString => Some tt
  | String _ _ => None
  end.

(** [/^r$/.test(s)]: the pattern is tried at position 0 only and has to
    reach the end of the input. *)
Definition testAnchored (r : regex) (s : string) : bool :=
  match run r atEnd s with
  | Some _ => true
  | None => false
  end.

(** One attempt of [r] at the start of [s]: the text left after the match. *)
Definition exec (r : regex) (s : string) : option string := run r Some s.

(** [s.match(/r/g)]: all matches, left to right, each search resuming where
    the previous match ended (one character further after an empty match).
    [skip] counts the characters of the current match still to be stepped
    over.  The source's [null] result is the empty list. *)
Fixpoint matchAllFrom (r : regex) (s : string) (skip : nat) : list string :=
  match s with
  | EmptyString =>
      match skip, exec r EmptyString with
      | O, Some _ => [EmptyString]
      | _, _ => []
      end
  | String c s' =>
      match skip with
      | S n => matchAllFrom r s' n
      | O =>
          match exec r s with
          | Some rest =>
              let len := String.length s - String.length rest in
              substring 0 len s :: matchAllFrom r s' (len - 1)
          | None => matchAllFrom r s' 0
          end
      end
  end.

Definition matchAll (r : regex) (s : string) : list string :=
  matchAllFrom r s 0.

(** The language of a pattern, stated without reference to the matcher. *)
Fixpoint allChars (p : ascii -> bool) (s : string) : bool :=
  match s with
  | EmptyString => true
  | String c s' => p c && allChars p s'
  end.

Inductive Lang : regex -> string -> Prop :=
| LangNil : Lang [] EmptyString
| LangChr p r c m :
    p c = true -> Lang r m -> Lang (Chr p :: r) (String c m)
| LangRep n p r u m :
    allChars p u = true -> n <= String.length u -> Lang r m ->
    Lang (Rep n p :: r) (u ++ m)%string.

End Regex.

(** ** Notifications shown through [toast] *)

Inductive message : Type :=
| ImportedSuccessfully (n : nat)     (* "n email(s) imported successfully" *)
| DuplicatesSkipped (n : nat)        (* "n duplicate(s) skipped" *)
| InvalidSkipped (n : nat).          (* "n invalid email(s) skipped" *)

Inductive toast : Type :=
| InvalidEmail                       (* "Please enter an email address." *)
| InvalidEmailFormat
| DuplicateEmail
| RecipientAdded (email : string)
| RecipientRemoved (email : string)
| AllRecipientsCleared
| NoEmailsFound
| ExcelImportComplete (description : list message)
| ImportFailed
| TooManyFiles
| FileTooLarge (name : string)
| NoRecipients
| EmailPrepared (recipients attachments : nat)
| PrepareError.

(** [variant: "destructive"] marks the error notifications. *)
Definition destructive (t : toast) : bool :=
  match t with
  | InvalidEmail | InvalidEmailFormat | DuplicateEmail | NoEmailsFound
  | ImportFailed | TooManyFiles | FileTooLarge _ | NoRecipients
  | PrepareError => true
  | RecipientAdded _ | RecipientRemoved _ | AllRecipientsCleared
  | ExcelImportComplete _ | EmailPrepared _ _ => false
  end.

(** ** RecipientsManager: the child component *)

Module RecipientsManager.

(** What the component does to the outside: calls of the two callback props,
    its own input field, toasts and console output, in program order. *)
Inductive effect : Type :=
| OnAddRecipient (email : string)
| OnRemoveRecipient (email : string)
| SetNewRecipient (value : string)
| Toast (t : toast)
| ConsoleWarn (text : string)
| ConsoleError (text : string).

(** [^\s@] *)
Definition notSpaceAt (c : ascii) : bool :=
  negb (Js.isWhiteSpace c) && negb (Ascii.eqb c "@").

Definition isChar (x : ascii) (c : ascii) : bool := Ascii.eqb c x.

(** [/^[^\s@]+@[^\s@]+\.[^\s@]+$/] *)
Definition emailRegex : Regex.regex :=
  [ Regex.Rep 1 notSpaceAt; Regex.Chr (isChar "@");
    Regex.Rep 1 notSpaceAt; Regex.Chr (isChar ".");
    Regex.Rep 1 notSpaceAt ].

Definition validateEmail (email : string) : bool :=
  Regex.testAnchored emailRegex email.

Definition inRange (lo hi : nat) (c : ascii) : bool :=
  (lo <=? nat_of_ascii c) && (nat_of_ascii c <=? hi).

(** [a-zA-Z] *)
Definition isLetter (c : ascii) : bool := inRange 97 122 c || inRange 65 90 c.

(** [a-zA-Z0-9] *)
Definition isAlnum (c : ascii) : bool := isLetter c || inRange 48 57 c.

(** [a-zA-Z0-9._%+-] *)
Definition isLocalChar (c : ascii) : bool :=
  isAlnum c || isChar "." c || isChar "_" c || isChar "%" c || isChar "+" c
  || isChar "-" c.

(** [a-zA-Z0-9.-] *)
Definition isDomainChar (c : ascii) : bool :=
  isAlnum c || isChar "." c || isChar "-" c.

(** [/[a-zA-Z0-9._%+-]+@[a-zA-Z0-9.-]+\.[a-zA-Z]{2,}/g] *)
Definition extractionRegex : Regex.regex :=
  [ Regex.Rep 1 isLocalChar; Regex.Chr (isChar "@");
    Regex.Rep 1 isDomainChar; Regex.Chr (isChar ".");
    Regex.Rep 2 isLetter ].

(** [handleAddRecipient], reading the input field [newRecipient] and the
    [recipients] prop. *)
Definition handleAddRecipient (recipients : list string) (newRecipient : string)
  : list effect :=
  if negb (Js.truthy (Js.trim newRecipient)) then [Toast InvalidEmail]
  else if negb (validateEmail newRecipient) then [Toast InvalidEmailFormat]
  else if Js.includes recipients newRecipient then [Toast DuplicateEmail]
  else [ OnAddRecipient newRecipient; SetNewRecipient EmptyString;
         Toast (RecipientAdded newRecipient) ].

Definition handleRemoveRecipient (email : string) : list effect :=
  [ OnRemoveRecipient email; Toast (RecipientRemoved email) ].

(** The "Clear All" button:
    [recipients.forEach(email => onRemoveRecipient(email)); toast(...)]. *)
Definition clearAll (recipients : list string) : list effect :=
  map OnRemoveRecipient recipients ++ [Toast AllRecipientsCleared].

(** *** Spreadsheet import *)

(** A cell value as the xlsx library hands it over. *)
Inductive cell : Type :=
| CString (s : string)
| CNumber (n : N)
| CBoolean (b : bool)
| CNull.

(** A row of [sheet_to_json(worksheet, { header: 1 })]. *)
Inductive rawRow : Type :=
| RowArray (cells : list cell)
| RowOther.                          (* [Array.isArray(row)] is false *)

(** The xlsx library is outside the repository: a worksheet is given by
    what its two conversions return, [None] when the call throws.
    [withHeaders] lists, per record, [Object.values(row)]. *)
Record worksheet : Type := {
  withHeaders : option (list (list cell));
  rawData : option (list rawRow)
}.

(** The sheets in [workbook.SheetNames] order. *)
Definition workbook := list worksheet.

Record importState : Type := {
  emails : list string;
  duplicates : list string;
  invalid : list string;
  warnings : list string
}.

Definition emptyImport : importState :=
  {| emails := []; duplicates := []; invalid := []; warnings := [] |}.

(** The body of [potentialEmails.forEach(emailMatch => ...)]. *)
Definition classify (recipients : list string) (acc : importState)
  (emailMatch : string) : importState :=
  let email := Js.toLowerCase (Js.trim emailMatch) in
  if validateEmail email then
    if Js.includes recipients email then
      if negb (Js.includes (duplicates acc) email)
      then {| emails := emails acc; duplicates := duplicates acc ++ [email];
              invalid := invalid acc; warnings := warnings acc |}
      else acc
    else if negb (Js.includes (emails acc) email)
      then {| emails := emails acc ++ [email]; duplicates := duplicates acc;
              invalid := invalid acc; warnings := warnings acc |}
      else acc
  else
    if negb (Js.includes (invalid acc) emailMatch)
    then {| emails := emails acc; duplicates := duplicates acc;
            invalid := invalid acc ++ [emailMatch]; warnings := warnings acc |}
    else acc.

(** [if (cell && typeof cell === 'string') { cell.match(...) ... }] *)
Definition scanCell (recipients : list string) (acc : importState) (c : cell)
  : importState :=
  match c with
  | CString s =>
      if Js.truthy s
      then fold_left (classify recipients) (Regex.matchAll extractionRegex s) acc
      else acc
  | _ => acc
  end.

Definition scanCells (recipients : list string) (acc : importState)
  (cells : list cell) : importState :=
  fold_left (scanCell recipients) cells acc.

Definition scanRawRow (recipients : list string) (acc : importState)
  (row : rawRow) : importState :=
  match row with
  | RowArray cells => scanCells recipients acc cells
  | RowOther => acc
  end.

Definition warn (text : string) (acc : importState) : importState :=
  {| emails := emails acc; duplicates := duplicates acc;
     invalid := invalid acc; warnings := warnings acc ++ [text] |}.

(** The body of [workbook.SheetNames.forEach]: method 1, then method 2. *)
Definition scanSheet (recipients : list string) (acc : importState)
  (ws : worksheet) : importState :=
  let acc1 :=
    match withHeaders ws with
    | Some rows => fold_left (scanCells recipients) rows acc
    | None => warn "Failed to parse with headers, trying raw data" acc
    end in
  match rawData ws with
  | Some rows => fold_left (scanRawRow recipients) rows acc1
  | None => warn "Failed to parse raw data" acc1
  end.

Definition scanWorkbook (recipients : list string) (wb : workbook)
  : importState :=
  fold_left (scanSheet recipients) wb emptyImport.

Definition messages (r : importState) : list message :=
  (if 0 <? List.length (emails r) then [ImportedSuccessfully (List.length (emails r))] else [])
  ++ (if 0 <? List.length (duplicates r) then [DuplicatesSkipped (List.length (duplicates r))] else [])
  ++ (if 0 <? List.length (invalid r) then [InvalidSkipped (List.length (invalid r))] else []).

(** [reader.onload]: [parsed] is the outcome of [XLSX.read], [None] when it
    throws. *)
Definition onload (recipients : list string) (parsed : option workbook)
  : list effect :=
  match parsed with
  | None => [ ConsoleError "Excel import error:"; Toast ImportFailed ]
  | Some wb =>
      let r := scanWorkbook recipients wb in
      map ConsoleWarn (warnings r)
      ++ map OnAddRecipient (emails r)
      ++ [ Toast (if (List.length (emails r) =? 0) && (List.length (duplicates r) =? 0)
                  then NoEmailsFound
                  else ExcelImportComplete (messages r)) ]
  end.

(** [handleExcelImport]: nothing happens without a selected file. *)
Definition handleExcelImport (recipients : list string)
  (file : option (option workbook)) : list effect :=
  match file with
  | None => []
  | Some parsed => onload recipients parsed
  end.

(** Observations on a trace. *)
Definition addCalls (t : list effect) : list string :=
  flat_map (fun e => match e with OnAddRecipient x => [x] | _ => [] end) t.

Definition toasts (t : list effect) : list toast :=
  flat_map (fun e => match e with Toast x => [x] | _ => [] end) t.

Definition reportsError (t : list effect) : bool :=
  existsb destructive (toasts t).

End RecipientsManager.

(** ** ContactForm: the parent component that owns the state *)

Module ContactForm.

(** The fields of a browser [File] that the form reads. *)
Record file : Type := {
  name : string;
  size : N;                            (* bytes *)
  type : string
}.

(** The three [useState] cells.  The variant of the form without
    attachments is the same component with [attachedFiles] always empty. *)
Record state : Type := {
  recipients : list string;
  attachedFiles : list file;
  isLoading : bool
}.

Definition initial : state :=
  {| recipients := []; attachedFiles := []; isLoading := false |}.

(** What a handler does, in program order.  A setter called with a value
    overwrites the cell; [UpdateAttachedFiles f] is the functional form
    [setAttachedFiles(prev => f prev)]. *)
Inductive effect : Type :=
| SetRecipients (value : list string)
| UpdateAttachedFiles (f : list file -> list file)
| SetIsLoading (value : bool)
| Toast (t : toast)
| ConsoleLog
| Delay (ms : nat)                     (* [await new Promise(... setTimeout(resolve, ms))] *)
| FormReset.

Definition apply (st : state) (e : effect) : state :=
  match e with
  | SetRecipients v =>
      {| recipients := v; attachedFiles := attachedFiles st;
         isLoading := isLoading st |}
  | UpdateAttachedFiles f =>
      {| recipients := recipients st; attachedFiles := f (attachedFiles st);
         isLoading := isLoading st |}
  | SetIsLoading b =>
      {| recipients := recipients st; attachedFiles := attachedFiles st;
         isLoading := b |}
  | Toast _ | ConsoleLog | Delay _ | FormReset => st
  end.

(** The store after a trace of effects. *)
Definition commit (t : list effect) (st : state) : state :=
  fold_left apply t st.

(** Every handler below takes [snap], the state of the render that created
    it: the [recipients] and [attachedFiles] it mentions are those of
    [snap], not of the store at the time of the call. *)

Definition handleAddRecipient (snap : state) (email : string) : list effect :=
  if Js.truthy email && negb (Js.includes (recipients snap) email)
  then [SetRecipients (recipients snap ++ [email])]
  else [].

Definition handleRemoveRecipient (snap : state) (email : string)
  : list effect :=
  [SetRecipients (filter (fun r => negb (String.eqb r email)) (recipients snap))].

Definition handleClearAll : list effect := [SetRecipients []].

Definition maxSize : N := 10 * 1024 * 1024.
Definition maxFiles : nat := 5.

Definition tooLarge (f : file) : bool := (maxSize <? size f)%N.

Definition handleFileAttach (snap : state) (files : list file) : list effect :=
  if maxFiles <? List.length (attachedFiles snap) + List.length files
  then [Toast TooManyFiles]
  else
    let validFiles := filter (fun f => negb (tooLarge f)) files in
    map (fun f => Toast (FileTooLarge (name f))) (filter tooLarge files)
    ++ [UpdateAttachedFiles (fun prev => prev ++ validFiles)].

Fixpoint removeAt {A : Type} (index : nat) (l : list A) : list A :=
  match l, index with
  | [], _ => []
  | _ :: l', O => l'
  | x :: l', S i => x :: removeAt i l'
  end.

(** [prev.filter((_, i) => i !== index)] *)
Definition handleRemoveFile (index : nat) : list effect :=
  [UpdateAttachedFiles (removeAt index)].

(** [onSubmit], on its normal path (nothing in the [try] block throws). *)
Definition onSubmit (snap : state) : list effect :=
  if List.length (recipients snap) =? 0 then [Toast NoRecipients]
  else
    [ SetIsLoading true; ConsoleLog; Delay 2000;
      Toast (EmailPrepared (List.length (recipients snap))
                           (List.length (attachedFiles snap)));
      FormReset; SetRecipients []; UpdateAttachedFiles (fun _ => []);
      SetIsLoading false ].

(** The props handed to [RecipientsManager] by the render of [snap]:
    [onAddRecipient={handleAddRecipient}],
    [onRemoveRecipient={handleRemoveRecipient}].  Toasts pass through; the
    child's input field and the console are not part of this state. *)
Definition dispatch (snap : state) (e : RecipientsManager.effect)
  : list effect :=
  match e with
  | RecipientsManager.OnAddRecipient email => handleAddRecipient snap email
  | RecipientsManager.OnRemoveRecipient email => handleRemoveRecipient snap email
  | RecipientsManager.Toast t => [Toast t]
  | RecipientsManager.SetNewRecipient _
  | RecipientsManager.ConsoleWarn _
  | RecipientsManager.ConsoleError _ => []
  end.

Definition lift (snap : state) (t : list RecipientsManager.effect)
  : list effect :=
  flat_map (dispatch snap) t.

(** User events. *)
Inductive event : Type :=
| Add (input : string)                          (* "+" or Enter on the input *)
| Remove (email : string)                       (* the X next to an entry *)
| ClearAll                                      (* the "Clear All" button *)
| ClearAllProp                                  (* the [onClearAll] prop *)
| ExcelImport (file : option (option RecipientsManager.workbook))
| FileAttach (files : list file)
| RemoveFile (index : nat)
| Submit.

(** The trace of the handler that the render of [snap] bound to [ev]. *)
Definition handle (snap : state) (ev : event) : list effect :=
  match ev with
  | Add input =>
      lift snap (RecipientsManager.handleAddRecipient (recipients snap) input)
  | Remove email =>
      lift snap (RecipientsManager.handleRemoveRecipient email)
  | ClearAll =>
      lift snap (RecipientsManager.clearAll (recipients snap))
  | ClearAllProp => handleClearAll
  | ExcelImport file =>
      lift snap (RecipientsManager.handleExcelImport (recipients snap) file)
  | FileAttach files => handleFileAttach snap files
  | RemoveFile index => handleRemoveFile index
  | Submit => onSubmit snap
  end.

(** An event handled by the current render. *)
Definition step (st : state) (ev : event) : state :=
  commit (handle st ev) st.

(** The states the form can be in.  A handler runs to completion against
    the store; ordinarily it belongs to the current render ([ReachStep]).
    The completion of a file read or of the submit delay may run after
    other events: then the handler of an earlier render [snap] acts on the
    current store ([ReachStale]). *)
Inductive reachable : state -> Prop :=
| ReachInit : reachable initial
| ReachStep st ev : reachable st -> reachable (step st ev)
| ReachStale snap st ev :
    reachable snap -> reachable st -> reachable (commit (handle snap ev) st).

(** Observations on a trace. *)
Definition toasts (t : list effect) : list toast :=
  flat_map (fun e => match e with Toast x => [x] | _ => [] end) t.

Definition delays (t : list effect) : list nat :=
  flat_map (fun e => match e with Delay ms => [ms] | _ => [] end) t.

Definition entersLoading (t : list effect) : bool :=
  existsb (fun e => match e with SetIsLoading true => true | _ => false end) t.

Definition reportsError (t : list effect) : bool :=
  existsb destructive (toasts t).

(** A trace that writes only duplicate-free lists to [recipients]. *)
Definition writesNoDup (e : effect) : Prop :=
  match e with
  | SetRecipients v => NoDup v
  | _ => True
  end.

End ContactForm.

(** ** Concrete inputs used in the statements below *)

Module Sample.

Import RecipientsManager.

(** What the two xlsx conversions return for a sheet that holds text cells
    in one column: the default conversion reads the first row as the header
    row and returns one record per later row, the raw conversion returns
    every row as an array. *)
Definition columnSheet (cells : list string) : worksheet :=
  {| withHeaders := Some (map (fun s => [CString s]) (tl cells));
     rawData := Some (map (fun s => RowArray [CString s]) cells) |}.

(** The same for text cells in one row: the row is the header row, so the
    default conversion returns no record. *)
Definition rowSheet (cells : list string) : worksheet :=
  {| withHeaders := Some [];
     rawData := Some [RowArray (map CString cells)] |}.

Definition cells : list string :=
  ["a@x.com"; "A@X.COM"; "not-an-email"; "b@y.com c@z.com"].

Definition withRecipients (l : list string) : ContactForm.state :=
  {| ContactForm.recipients := l; ContactForm.attachedFiles := [];
     ContactForm.isLoading := false |}.

Definition small (n : string) : ContactForm.file :=
  {| ContactForm.name := n; ContactForm.size := 1024;
     ContactForm.type := "text/plain" |}.

(** 11 MB *)
Definition big (n : string) : ContactForm.file :=
  {| ContactForm.name := n; ContactForm.size := 11 * 1024 * 1024;
     ContactForm.type := "application/zip" |}.

Definition withFiles (l : list ContactForm.file) : ContactForm.state :=
  {| ContactForm.recipients := ["a@x.com"]; ContactForm.attachedFiles := l;
     ContactForm.isLoading := false |}.

Definition staged4 : ContactForm.state :=
  withFiles [small "f1"; small "f2"; small "f3"; small "f4"].

Definition staged5 : ContactForm.state :=
  withFiles [small "f1"; small "f2"; small "f3"; small "f4"; small "f5"].

End Sample.

(** ** What the render reads off the state, and views of an import *)

Module Render.

Import ContactForm.

(** [disabled={isLoading || recipients.length === 0}] on the submit button. *)
Definition submitDisabled (st : state) : bool :=
  isLoading st || (List.length (recipients st) =? 0).

(** The state after a sequence of events, each handled by the render that
    the previous one left. *)
Definition after (evs : list event) : state := fold_left step evs initial.

(** The staging limits shown under the file list: "n/5 files, Max 10MB per
    file". *)
Definition withinLimits (st : state) : Prop :=
  List.length (attachedFiles st) <= 5
  /\ Forall (fun f => (size f <= 10485760)%N) (attachedFiles st).

End Render.

Module Scan.

Import RecipientsManager.

(** The candidates of a cell, a row, a sheet and a workbook, in the order
    in which [handleExcelImport] meets them. *)
Definition cellMatches (c : cell) : list string :=
  match c with
  | CString s => if Js.truthy s then Regex.matchAll extractionRegex s else []
  | _ => []
  end.

Definition rowMatches (row : rawRow) : list string :=
  match row with
  | RowArray cs => flat_map cellMatches cs
  | RowOther => []
  end.

Definition sheetMatches (ws : worksheet) : list string :=
  match withHeaders ws with
  | Some rows => flat_map (flat_map cellMatches) rows
  | None => []
  end
  ++ match rawData ws with
     | Some rows => flat_map rowMatches rows
     | None => []
     end.

Definition workbookMatches (wb : workbook) : list string :=
  flat_map sheetMatches wb.

(** Two import states with the same three result lists (the console
    warnings apart). *)
Definition same (a b : importState) : Prop :=
  emails a = emails b /\ duplicates a = duplicates b /\ invalid a = invalid b.

(** [m] has been dealt with: classifying it again changes nothing. *)
Definition seen (recipients : list string) (acc : importState) (m : string)
  : bool :=
  let email := Js.toLowerCase (Js.trim m) in
  if validateEmail email then
    if Js.includes recipients email
    then Js.includes (duplicates acc) email
    else Js.includes (emails acc) email
  else Js.includes (invalid acc) m.

(** What holds of the result lists at every point of a scan. *)
Definition wellFormed (recipients : list string) (acc : importState) : Prop :=
  NoDup (emails acc) /\ NoDup (duplicates acc)
  /\ (forall e, In e (emails acc) ->
        ~ In e recipients /\ validateEmail e = true /\ Js.toLowerCase e = e)
  /\ (forall e, In e (duplicates acc) ->
        In e recipients /\ validateEmail e = true /\ Js.toLowerCase e = e).

End Scan.

(** * Properties *)

(** ** Strings *)

Section JsFacts.

Lemma includes_In (arr : list string) (x : string) :
  Js.includes arr x = true <-> In x arr.
Proof.
  unfold Js.includes. rewrite existsb_exists. split.
  - intros [y [Hy He]]. apply String.eqb_eq in He. now subst.
  - intros H. exists x. split; [assumption | apply String.eqb_refl].
Qed.

Lemma includes_false (arr : list string) (x : string) :
  Js.includes arr x = false <-> ~ In x arr.
Proof.
  rewrite <- includes_In. destruct (Js.includes arr x); split; congruence.
Qed.

Lemma trimStart_empty (s : string) :
  Js.trimStart s = EmptyString <-> Js.whitespaceOnly s = true.
Proof.
  induction s as [|c s IH]; simpl.
  - tauto.
  - destruct (Js.isWhiteSpace c); simpl; [exact IH | split; discriminate].
Qed.

Lemma trimEnd_empty (s : string) :
  Js.trimEnd s = EmptyString <-> Js.whitespaceOnly s = true.
Proof.
  induction s as [|c s IH]; simpl.
  - tauto.
  - destruct (Js.trimEnd s) eqn:E.
    + destruct (Js.isWhiteSpace c); simpl.
      * split; intros _; [now apply IH | reflexivity].
      * split; discriminate.
    + split; [discriminate|].
      intros H. apply andb_true_iff in H as [_ H].
      apply IH in H. discriminate.
Qed.

Lemma whitespaceOnly_trimStart (s : string) :
  Js.whitespaceOnly (Js.trimStart s) = Js.whitespaceOnly s.
Proof.
  induction s as [|c s IH]; simpl; [reflexivity|].
  destruct (Js.isWhiteSpace c) eqn:E; simpl; [exact IH | now rewrite E].
Qed.

(** [!s.trim()] holds exactly for the empty and the whitespace-only input. *)
Lemma trim_falsy (s : string) :
  Js.truthy (Js.trim s) = false <-> Js.whitespaceOnly s = true.
Proof.
  unfold Js.trim. rewrite <- whitespaceOnly_trimStart, <- trimEnd_empty.
  destruct (Js.trimEnd (Js.trimStart s)); simpl; split; congruence.
Qed.

(** Trimming leaves a string without white space as it is. *)
Lemma trimEnd_id (s : string) :
  Regex.allChars (fun c => negb (Js.isWhiteSpace c)) s = true ->
  Js.trimEnd s = s.
Proof.
  induction s as [|c s IH]; simpl; [reflexivity|].
  intros H. apply andb_true_iff in H as [Hc Hs].
  rewrite (IH Hs). apply negb_true_iff in Hc. rewrite Hc.
  now destruct s.
Qed.

Lemma trim_id (s : string) :
  Regex.allChars (fun c => negb (Js.isWhiteSpace c)) s = true ->
  Js.trim s = s.
Proof.
  intros H. unfold Js.trim.
  assert (Js.trimStart s = s) as ->.
  { destruct s as [|c s]; simpl in *; [reflexivity|].
    apply andb_true_iff in H as [Hc _]. apply negb_true_iff in Hc.
    now rewrite Hc. }
  now apply trimEnd_id.
Qed.

Lemma toLowerCase_app (u v : string) :
  Js.toLowerCase (u ++ v) = (Js.toLowerCase u ++ Js.toLowerCase v)%string.
Proof.
  induction u as [|c u IH]; simpl; [reflexivity | now rewrite IH].
Qed.

Lemma toLowerCase_length (u : string) :
  String.length (Js.toLowerCase u) = String.length u.
Proof.
  induction u as [|c u IH]; simpl; [reflexivity | now rewrite IH].
Qed.

End JsFacts.

(** ** The matcher against the language of a pattern *)

Section RegexFacts.

Lemma allChars_app p (u v : string) :
  Regex.allChars p (u ++ v) = Regex.allChars p u && Regex.allChars p v.
Proof.
  induction u as [|c u IH]; simpl; [reflexivity|].
  now rewrite IH, andb_assoc.
Qed.

Lemma allChars_weaken (p q : ascii -> bool) (u : string) :
  (forall c, p c = true -> q c = true) ->
  Regex.allChars p u = true -> Regex.allChars q u = true.
Proof.
  intros Hpq. induction u as [|c u IH]; simpl; [reflexivity|].
  intros H. apply andb_true_iff in H as [Hc Hu].
  now rewrite (Hpq _ Hc), (IH Hu).
Qed.

Context {A : Type}.
Implicit Types (k : string -> option A) (p : ascii -> bool).

Lemma star_sound p k s x :
  Regex.star p k s = Some x ->
  exists u v, s = (u ++ v)%string /\ Regex.allChars p u = true /\ k v = Some x.
Proof.
  induction s as [|c s IH]; simpl; intros H.
  - exists EmptyString, EmptyString. auto.
  - destruct (p c) eqn:Hc.
    + destruct (Regex.star p k s) as [y|] eqn:Hs.
      * injection H as ->.
        destruct (IH eq_refl) as (u & v & -> & Hu & Hk).
        exists (String c u), v. simpl. now rewrite Hc, Hu.
      * exists EmptyString, (String c s). auto.
    + exists EmptyString, (String c s). auto.
Qed.

Lemma star_complete p k u v :
  Regex.allChars p u = true -> k v <> None ->
  Regex.star p k (u ++ v) <> None.
Proof.
  induction u as [|c u IH]; simpl; intros Hu Hk.
  - destruct v as [|d v]; simpl; [assumption|].
    destruct (p d); [|assumption].
    destruct (Regex.star p k v); [discriminate | assumption].
  - apply andb_true_iff in Hu as [Hc Hu]. rewrite Hc.
    specialize (IH Hu Hk).
    destruct (Regex.star p k (u ++ v)); [discriminate | contradiction].
Qed.

Lemma atLeast_sound n p k s x :
  Regex.atLeast n p k s = Some x ->
  exists u v, s = (u ++ v)%string /\ Regex.allChars p u = true
              /\ n <= String.length u /\ k v = Some x.
Proof.
  revert s. induction n as [|n IH]; simpl; intros s H.
  - destruct (star_sound _ _ _ _ H) as (u & v & -> & Hu & Hk).
    exists u, v. repeat split; auto with arith.
  - destruct s as [|c s]; [discriminate|].
    destruct (p c) eqn:Hc; [|discriminate].
    destruct (IH _ H) as (u & v & -> & Hu & Hn & Hk).
    exists (String c u), v. simpl. rewrite Hc, Hu.
    repeat split; auto with arith.
Qed.

Lemma atLeast_complete n p k u v :
  Regex.allChars p u = true -> n <= String.length u -> k v <> None ->
  Regex.atLeast n p k (u ++ v) <> None.
Proof.
  revert u. induction n as [|n IH]; simpl; intros u Hu Hn Hk.
  - now apply star_complete.
  - destruct u as [|c u]; simpl in *; [lia|].
    apply andb_true_iff in Hu as [Hc Hu]. rewrite Hc.
    apply IH; auto with arith.
Qed.

Lemma append_assoc (a b c : string) :
  ((a ++ b) ++ c = a ++ (b ++ c))%string.
Proof.
  induction a as [|x a IH]; simpl; [reflexivity | now rewrite IH].
Qed.

(** A successful run consumed a word of the language; the continuation
    accepted what was left. *)
Lemma run_sound r k s x :
  Regex.run r k s = Some x ->
  exists m rest, s = (m ++ rest)%string /\ Regex.Lang r m /\ k rest = Some x.
Proof.
  revert k s x. induction r as [|[p|n p] r IH]; simpl; intros k s x H.
  - exists EmptyString, s. repeat split; [constructor | assumption].
  - destruct s as [|c s]; [discriminate|].
    destruct (p c) eqn:Hc; [|discriminate].
    destruct (IH _ _ _ H) as (m & rest & -> & Hm & Hk).
    exists (String c m), rest. repeat split; [now constructor | assumption].
  - destruct (atLeast_sound _ _ _ _ _ H) as (u & v & -> & Hu & Hn & Hv).
    destruct (IH _ _ _ Hv) as (m & rest & -> & Hm & Hk).
    exists (u ++ m)%string, rest. rewrite append_assoc.
    repeat split; [now constructor | assumption].
Qed.

(** Backtracking is exhaustive: a word of the language followed by a text
    the continuation accepts is never rejected. *)
Lemma run_complete r k m rest :
  Regex.Lang r m -> k rest <> None -> Regex.run r k (m ++ rest) <> None.
Proof.
  intros Hm. revert k rest.
  induction Hm as [|p r c m Hc Hm IH|n p r u m Hu Hn Hm IH]; intros k rest Hk.
  - exact Hk.
  - simpl. rewrite Hc. now apply IH.
  - simpl. rewrite append_assoc. apply atLeast_complete; auto.
Qed.

End RegexFacts.

Section RegexResults.

Lemma append_empty_r (s : string) : (s ++ EmptyString)%string = s.
Proof. induction s as [|c s IH]; simpl; [reflexivity | now rewrite IH]. Qed.

(** [test] on an anchored pattern decides membership in its language. *)
Lemma testAnchored_Lang (r : Regex.regex) (s : string) :
  Regex.testAnchored r s = true <-> Regex.Lang r s.
Proof.
  unfold Regex.testAnchored. split.
  - destruct (Regex.run r Regex.atEnd s) as [x|] eqn:H; [|discriminate].
    intros _. destruct (run_sound _ _ _ _ H) as (m & rest & -> & Hm & Hk).
    destruct rest; [|discriminate]. now rewrite append_empty_r.
  - intros Hm.
    pose proof (run_complete r Regex.atEnd s EmptyString Hm) as H.
    rewrite append_empty_r in H.
    destruct (Regex.run r Regex.atEnd s); [reflexivity|].
    exfalso. apply H; [discriminate | reflexivity].
Qed.

Lemma append_length (u v : string) :
  String.length (u ++ v) = String.length u + String.length v.
Proof. induction u as [|c u IH]; simpl; [reflexivity | now rewrite IH]. Qed.

Lemma substring_prefix (m rest : string) :
  substring 0 (String.length (m ++ rest) - String.length rest) (m ++ rest) = m.
Proof.
  rewrite append_length.
  replace (String.length m + String.length rest - String.length rest)
    with (String.length m) by lia.
  induction m as [|c m IH]; simpl.
  - now destruct rest.
  - now rewrite IH.
Qed.

(** Every string returned by a global match is a word of the pattern. *)
Lemma matchAllFrom_Lang (r : Regex.regex) (s : string) (skip : nat) (m : string) :
  In m (Regex.matchAllFrom r s skip) -> Regex.Lang r m.
Proof.
  revert skip. induction s as [|c s IH]; intros skip;
    cbn [Regex.matchAllFrom].
  - destruct skip; [|intros []].
    destruct (Regex.exec r EmptyString) as [rest|] eqn:H; [|intros []].
    intros [<-|[]].
    destruct (run_sound _ _ _ _ H) as (w & rest' & Hs & Hw & _).
    destruct w; [assumption | discriminate].
  - destruct skip as [|n]; [|apply IH].
    destruct (Regex.exec r (String c s)) as [rest|] eqn:H; [|apply IH].
    cbn zeta. intros [<-|Hin]; [|now apply IH in Hin].
    destruct (run_sound _ _ _ _ H) as (w & rest' & Hs & Hw & Hk).
    injection Hk as ->. rewrite Hs, substring_prefix. exact Hw.
Qed.

Lemma matchAll_Lang (r : Regex.regex) (s m : string) :
  In m (Regex.matchAll r s) -> Regex.Lang r m.
Proof. apply matchAllFrom_Lang. Qed.

End RegexResults.

(** ** The two email patterns *)

Section EmailPatterns.

Import RecipientsManager.

Ltac by_ascii_cases c :=
  destruct c as [[] [] [] [] [] [] [] []]; vm_compute;
  first [ reflexivity | discriminate | intros; discriminate | intros; reflexivity ].

Lemma localChar_lower (c : ascii) :
  isLocalChar c = true -> notSpaceAt (Js.toLowerCaseChar c) = true.
Proof. by_ascii_cases c. Qed.

Lemma domainChar_lower (c : ascii) :
  isDomainChar c = true -> notSpaceAt (Js.toLowerCaseChar c) = true.
Proof. by_ascii_cases c. Qed.

Lemma letter_lower (c : ascii) :
  isLetter c = true -> notSpaceAt (Js.toLowerCaseChar c) = true.
Proof. by_ascii_cases c. Qed.

Lemma localChar_noSpace (c : ascii) :
  isLocalChar c = true -> negb (Js.isWhiteSpace c) = true.
Proof. by_ascii_cases c. Qed.

Lemma domainChar_noSpace (c : ascii) :
  isDomainChar c = true -> negb (Js.isWhiteSpace c) = true.
Proof. by_ascii_cases c. Qed.

Lemma letter_noSpace (c : ascii) :
  isLetter c = true -> negb (Js.isWhiteSpace c) = true.
Proof. by_ascii_cases c. Qed.

Lemma notSpaceAt_noSpace (c : ascii) :
  notSpaceAt c = true -> Js.isWhiteSpace c = false.
Proof.
  unfold notSpaceAt. intros H. apply andb_true_iff in H as [H _].
  now apply negb_true_iff in H.
Qed.

Lemma isChar_eq (x c : ascii) : isChar x c = true -> c = x.
Proof. unfold isChar. apply Ascii.eqb_eq. Qed.

Lemma allChars_lower (p : ascii -> bool) (u : string) :
  (forall c, p c = true -> notSpaceAt (Js.toLowerCaseChar c) = true) ->
  Regex.allChars p u = true ->
  Regex.allChars notSpaceAt (Js.toLowerCase u) = true.
Proof.
  intros Hp. induction u as [|c u IH]; simpl; [reflexivity|].
  intros H. apply andb_true_iff in H as [Hc Hu].
  now rewrite (Hp _ Hc), (IH Hu).
Qed.

(** The shape of a string accepted by the validation rule. *)
Lemma emailRegex_shape (s : string) :
  Regex.Lang emailRegex s <->
  exists a b c,
    s = (a ++ String "@" (b ++ String "." c))%string
    /\ Regex.allChars notSpaceAt a = true /\ 1 <= String.length a
    /\ Regex.allChars notSpaceAt b = true /\ 1 <= String.length b
    /\ Regex.allChars notSpaceAt c = true /\ 1 <= String.length c.
Proof.
  unfold emailRegex. split.
  - intros H.
    inversion H as [| |n1 p1 r1 a m1 Ha La H1]; subst; clear H.
    inversion H1 as [|p2 r2 c2 m2 Hat H2|]; subst; clear H1.
    inversion H2 as [| |n3 p3 r3 b m3 Hb Lb H3]; subst; clear H2.
    inversion H3 as [|p4 r4 c4 m4 Hdot H4|]; subst; clear H3.
    inversion H4 as [| |n5 p5 r5 c m5 Hc Lc H5]; subst; clear H4.
    inversion H5; subst; clear H5.
    apply isChar_eq in Hat, Hdot. subst.
    exists a, b, c. rewrite append_empty_r. repeat split; assumption.
  - intros (a & b & c & -> & Ha & La & Hb & Lb & Hc & Lc).
    apply Regex.LangRep; [assumption..|].
    apply Regex.LangChr; [reflexivity|].
    apply Regex.LangRep; [assumption..|].
    apply Regex.LangChr; [reflexivity|].
    rewrite <- (append_empty_r c).
    apply Regex.LangRep; [assumption..|]. constructor.
Qed.

(** The shape of a string matched by the extraction pattern. *)
Lemma extractionRegex_shape (s : string) :
  Regex.Lang extractionRegex s ->
  exists a b c,
    s = (a ++ String "@" (b ++ String "." c))%string
    /\ Regex.allChars isLocalChar a = true /\ 1 <= String.length a
    /\ Regex.allChars isDomainChar b = true /\ 1 <= String.length b
    /\ Regex.allChars isLetter c = true /\ 2 <= String.length c.
Proof.
  unfold extractionRegex. intros H.
  inversion H as [| |n1 p1 r1 a m1 Ha La H1]; subst; clear H.
  inversion H1 as [|p2 r2 c2 m2 Hat H2|]; subst; clear H1.
  inversion H2 as [| |n3 p3 r3 b m3 Hb Lb H3]; subst; clear H2.
  inversion H3 as [|p4 r4 c4 m4 Hdot H4|]; subst; clear H3.
  inversion H4 as [| |n5 p5 r5 c m5 Hc Lc H5]; subst; clear H4.
  inversion H5; subst; clear H5.
  apply isChar_eq in Hat, Hdot. subst.
  exists a, b, c. rewrite append_empty_r. repeat split; assumption.
Qed.

(** A valid address is neither empty nor blank. *)
Lemma validateEmail_not_blank (s : string) :
  validateEmail s = true ->
  Js.truthy s = true /\ Js.truthy (Js.trim s) = true.
Proof.
  intros H. apply testAnchored_Lang, emailRegex_shape in H.
  destruct H as (a & b & c & -> & Ha & La & _).
  destruct a as [|x a]; simpl in La; [lia|].
  split; [reflexivity|].
  destruct (Js.truthy (Js.trim (String x a ++ String "@" (b ++ String "." c))))
    eqn:E; [reflexivity|].
  apply trim_falsy in E. simpl in E, Ha.
  apply andb_true_iff in Ha as [Hx _]. apply notSpaceAt_noSpace in Hx.
  rewrite Hx in E. discriminate.
Qed.

(** Every word of the extraction pattern, trimmed and lower-cased, passes
    the validation rule. *)
Lemma extraction_validates (m : string) :
  Regex.Lang extractionRegex m ->
  validateEmail (Js.toLowerCase (Js.trim m)) = true.
Proof.
  intros H. apply extractionRegex_shape in H.
  destruct H as (a & b & c & -> & Ha & La & Hb & Lb & Hc & Lc).
  rewrite trim_id.
  - apply testAnchored_Lang, emailRegex_shape.
    exists (Js.toLowerCase a), (Js.toLowerCase b), (Js.toLowerCase c).
    rewrite !toLowerCase_length.
    repeat split; try lia.
    + rewrite toLowerCase_app. cbn [Js.toLowerCase].
      rewrite toLowerCase_app. reflexivity.
    + exact (allChars_lower _ _ localChar_lower Ha).
    + exact (allChars_lower _ _ domainChar_lower Hb).
    + exact (allChars_lower _ _ letter_lower Hc).
  - rewrite allChars_app. cbn [Regex.allChars]. rewrite allChars_app.
    cbn [Regex.allChars].
    rewrite (allChars_weaken _ _ _ localChar_noSpace Ha).
    rewrite (allChars_weaken _ _ _ domainChar_noSpace Hb).
    rewrite (allChars_weaken _ _ _ letter_noSpace Hc).
    reflexivity.
Qed.

End EmailPatterns.

(** ** Traces and the store *)

Section Traces.

Import ContactForm.

Lemma commit_app (t u : list effect) (st : state) :
  commit (t ++ u) st = commit u (commit t st).
Proof. apply fold_left_app. Qed.

Lemma toasts_app (t u : list effect) : toasts (t ++ u) = toasts t ++ toasts u.
Proof. unfold toasts. now rewrite flat_map_app. Qed.

Lemma lift_app (snap : state) (t u : list RecipientsManager.effect) :
  lift snap (t ++ u) = lift snap t ++ lift snap u.
Proof. unfold lift. now rewrite flat_map_app. Qed.

Lemma commit_NoDup (t : list effect) (st : state) :
  Forall writesNoDup t -> NoDup (recipients st) ->
  NoDup (recipients (commit t st)).
Proof.
  intros Ht. revert st. induction Ht as [|e t He Ht IH]; intros st Hst.
  - exact Hst.
  - simpl. apply IH. destruct e; simpl in *; assumption.
Qed.

Lemma NoDup_snoc (l : list string) (x : string) :
  NoDup l -> ~ In x l -> NoDup (l ++ [x]).
Proof.
  intros Hl Hx. induction Hl as [|y l Hy Hl IH]; simpl.
  - constructor; [intros [] | constructor].
  - constructor.
    + rewrite in_app_iff. simpl. intros [H|[H|[]]]; [now apply Hy|].
      subst. apply Hx. now left.
    + apply IH. intros H. apply Hx. now right.
Qed.

Lemma handleAddRecipient_NoDup (snap : state) (email : string) :
  NoDup (recipients snap) -> Forall writesNoDup (handleAddRecipient snap email).
Proof.
  intros Hs. unfold handleAddRecipient.
  destruct (Js.truthy email); simpl; [|constructor].
  destruct (Js.includes (recipients snap) email) eqn:E; simpl; constructor.
  - simpl. apply NoDup_snoc; [assumption | now apply includes_false].
  - constructor.
Qed.

Lemma handleRemoveRecipient_NoDup (snap : state) (email : string) :
  NoDup (recipients snap) ->
  Forall writesNoDup (handleRemoveRecipient snap email).
Proof.
  intros Hs. constructor; [|constructor]. simpl. now apply NoDup_filter.
Qed.

Lemma lift_NoDup (snap : state) (t : list RecipientsManager.effect) :
  NoDup (recipients snap) -> Forall writesNoDup (lift snap t).
Proof.
  intros Hs. induction t as [|e t IH]; [constructor|].
  unfold lift. simpl. apply Forall_app. split; [|exact IH].
  destruct e; simpl; auto using handleAddRecipient_NoDup,
    handleRemoveRecipient_NoDup.
  constructor; [exact I | constructor].
Qed.

Lemma handle_NoDup (snap : state) (ev : event) :
  NoDup (recipients snap) -> Forall writesNoDup (handle snap ev).
Proof.
  intros Hs. destruct ev; cbn [handle]; try now apply lift_NoDup.
  - unfold handleClearAll. repeat constructor.
  - unfold handleFileAttach.
    destruct (maxFiles <? _); [repeat constructor|].
    apply Forall_app. split; [|repeat constructor].
    apply Forall_forall. intros e He. apply in_map_iff in He as (f & <- & _).
    exact I.
  - repeat constructor.
  - unfold onSubmit. destruct (_ =? 0); repeat constructor.
Qed.

(** The store after the child's "Clear All" loop: every call of the remove
    callback filters the same snapshot, and the last write stays. *)
Lemma commit_removals (snap st : state) (l : list string) :
  recipients (commit (lift snap (map RecipientsManager.OnRemoveRecipient l)) st)
  = match rev l with
    | [] => recipients st
    | x :: _ => filter (fun r => negb (String.eqb r x)) (recipients snap)
    end.
Proof.
  induction l as [|y l IH] using rev_ind; [reflexivity|].
  rewrite map_app, lift_app, commit_app, rev_app_distr. reflexivity.
Qed.

End Traces.

(** ** The recipient list *)

Section RecipientList.

Import ContactForm.

(** The manual add, when it goes through, is one write of the snapshot
    extended by the input. *)
Lemma handle_Add_accepted (st : state) (input : string) :
  RecipientsManager.validateEmail input = true ->
  Js.includes (recipients st) input = false ->
  handle st (Add input)
  = [SetRecipients (recipients st ++ [input]); Toast (RecipientAdded input)].
Proof.
  intros Hv Hi. destruct (validateEmail_not_blank _ Hv) as [Ht Htt].
  cbn [handle]. unfold RecipientsManager.handleAddRecipient.
  rewrite Htt, Hv, Hi. cbn. unfold handleAddRecipient.
  rewrite Ht, Hi. reflexivity.
Qed.

(** C3. The manual add reports an error and leaves the recipient list as it
    was exactly when the input is empty or whitespace-only, or fails the
    validation rule, or is already in the list (compared as stored, case
    included). *)
Theorem add_rejects_iff (st : state) (input : string) :
  (reportsError (handle st (Add input)) = true
   /\ recipients (step st (Add input)) = recipients st)
  <->
  (Js.whitespaceOnly input = true
   \/ RecipientsManager.validateEmail input = false
   \/ In input (recipients st)).
Proof.
  destruct (Js.truthy (Js.trim input)) eqn:Et.
  - destruct (RecipientsManager.validateEmail input) eqn:Ev.
    + destruct (Js.includes (recipients st) input) eqn:Ei.
      * split; [intros _; right; right; now apply includes_In|].
        intros _. unfold step. cbn [handle].
        unfold RecipientsManager.handleAddRecipient.
        rewrite Et, Ev, Ei. split; reflexivity.
      * split.
        -- intros [He _]. rewrite (handle_Add_accepted _ _ Ev Ei) in He.
           discriminate.
        -- intros [H|[H|H]].
           ++ apply trim_falsy in H. congruence.
           ++ discriminate.
           ++ apply includes_In in H. congruence.
    + split; [intros _; right; now left|].
      intros _. unfold step. cbn [handle].
      unfold RecipientsManager.handleAddRecipient.
      rewrite Et, Ev. split; reflexivity.
  - split; [intros _; left; now apply trim_falsy|].
    intros _. unfold step. cbn [handle].
    unfold RecipientsManager.handleAddRecipient.
    rewrite Et. split; reflexivity.
Qed.

(** X20. The manual add ("+" or Enter, handled by the render that shows the
    current list) of a syntactically valid address that is not in the list
    puts that very string at the end of the list: the length grows by one
    and every earlier entry stays at its index.  No error is reported. *)
Theorem add_valid_appends (st : state) (email : string) :
  RecipientsManager.validateEmail email = true ->
  Js.includes (recipients st) email = false ->
  recipients (step st (Add email)) = recipients st ++ [email]
  /\ List.length (recipients (step st (Add email)))
     = S (List.length (recipients st))
  /\ (forall i e, nth_error (recipients st) i = Some e ->
                  nth_error (recipients (step st (Add email))) i = Some e)
  /\ nth_error (recipients (step st (Add email)))
       (List.length (recipients st)) = Some email
  /\ reportsError (handle st (Add email)) = false.
Proof.
  intros Hv Hi.
  assert (recipients (step st (Add email)) = recipients st ++ [email]) as E.
  { unfold step. now rewrite (handle_Add_accepted _ _ Hv Hi). }
  rewrite E. repeat split.
  - rewrite length_app. simpl. lia.
  - intros i e H. rewrite nth_error_app1; [assumption|].
    apply nth_error_Some. congruence.
  - rewrite nth_error_app2, Nat.sub_diag; [reflexivity | lia].
  - now rewrite (handle_Add_accepted _ _ Hv Hi).
Qed.

Lemma add_valid_appends_witness :
  recipients (step (Sample.withRecipients ["a@x.com"]) (Add "B@y.com"))
  = ["a@x.com"; "B@y.com"].
Proof.
  apply (add_valid_appends (Sample.withRecipients ["a@x.com"]) "B@y.com");
    reflexivity.
Defined.

(** C4 (failing input). The add callback extends the recipients of the
    render that created it, not the list as it is when the call is made.
    An import into the list a@x.com that finds b@y.com and c@z.com calls
    the callback of one render twice.  The first call gives a@x.com,
    b@y.com.  At the second call c@z.com is valid and not in the list, yet
    it is not appended to that list: the list becomes a@x.com, c@z.com, its
    length stays 2 and the stored entry b@y.com is gone, while the
    notification reports 2 imported addresses. *)
Theorem add_from_one_render_overwrites :
  let snap := Sample.withRecipients ["a@x.com"] in
  let st1 := commit (handleAddRecipient snap "b@y.com") snap in
  let st2 := commit (handleAddRecipient snap "c@z.com") st1 in
  handle snap (ExcelImport (Some (Some [Sample.columnSheet Sample.cells])))
  = handleAddRecipient snap "b@y.com" ++ handleAddRecipient snap "c@z.com"
    ++ [Toast (ExcelImportComplete [ImportedSuccessfully 2; DuplicatesSkipped 1])]
  /\ recipients st1 = ["a@x.com"; "b@y.com"]
  /\ RecipientsManager.validateEmail "c@z.com" = true
  /\ Js.includes (recipients st1) "c@z.com" = false
  /\ recipients st2 = ["a@x.com"; "c@z.com"]
  /\ recipients st2 <> recipients st1 ++ ["c@z.com"]
  /\ List.length (recipients st2) = List.length (recipients st1)
  /\ nth_error (recipients st1) 1 = Some "b@y.com"
  /\ nth_error (recipients st2) 1 = Some "c@z.com"
  /\ recipients
       (step snap (ExcelImport (Some (Some [Sample.columnSheet Sample.cells]))))
     = recipients st2.
Proof.
  cbv zeta. repeat split; try (vm_compute; reflexivity).
  vm_compute. discriminate.
Qed.

(** What "Clear All" leaves in a duplicate-free list: everything but the
    last entry. *)
Lemma clearAll_result (st : state) :
  NoDup (recipients st) ->
  recipients (step st ClearAll) = removelast (recipients st).
Proof.
  intros Hn. unfold step. cbn [handle]. unfold RecipientsManager.clearAll.
  rewrite lift_app, commit_app.
  change (recipients (commit (lift st [RecipientsManager.Toast AllRecipientsCleared]) ?s))
    with (recipients s).
  rewrite commit_removals.
  destruct (recipients st) as [|y l] eqn:El using rev_ind; [reflexivity|].
  clear IHl. rewrite rev_app_distr, removelast_last. cbn [rev app].
  rewrite filter_app. cbn [filter]. rewrite String.eqb_refl. cbn.
  rewrite app_nil_r. apply NoDup_remove_2 in Hn. rewrite app_nil_r in Hn.
  clear El. induction l as [|z l IH]; [reflexivity|].
  cbn [filter].
  destruct (String.eqb_spec z y) as [->|Hne].
  - exfalso. apply Hn. now left.
  - cbn. f_equal. apply IH. intros H. apply Hn. now right.
Qed.

(** C2 (failing input). With two recipients in the list, the "Clear All"
    button of RecipientsManager leaves the first one in place: both calls
    of the remove callback filter the list of the same render, and the
    second write replaces the first. *)
Theorem clear_all_two_recipients :
  recipients (step (Sample.withRecipients ["a@x.com"; "b@y.com"]) ClearAll)
  = ["a@x.com"].
Proof. reflexivity. Qed.

(** The parent's own [handleClearAll] does empty the list. *)
Lemma handleClearAll_empties (st : state) :
  recipients (step st ClearAllProp) = [].
Proof. reflexivity. Qed.

(** C7. The recipient list never holds the same string twice: this is so
    in the initial state, every event keeps it so (manual add, import,
    remove, clear, also when a handler of an earlier render completes
    late), hence it is so in every state the form reaches. *)
Theorem recipients_no_duplicates :
  NoDup (recipients initial)
  /\ (forall snap st ev,
        NoDup (recipients snap) -> NoDup (recipients st) ->
        NoDup (recipients (commit (handle snap ev) st)))
  /\ (forall st, reachable st -> NoDup (recipients st)).
Proof.
  assert (forall snap st ev,
            NoDup (recipients snap) -> NoDup (recipients st) ->
            NoDup (recipients (commit (handle snap ev) st))) as Hstep.
  { intros snap st ev Hsnap Hst.
    apply commit_NoDup; [now apply handle_NoDup | assumption]. }
  split; [constructor|]. split; [exact Hstep|].
  intros st Hr. induction Hr as [|st ev Hr IH|snap st ev Hs IHs Hr IH].
  - constructor.
  - now apply Hstep.
  - now apply Hstep.
Qed.

Lemma recipients_no_duplicates_witness :
  NoDup (recipients
           (step (step (step initial (Add "a@x.com")) (Add "b@y.com"))
                 (Add "a@x.com")))
  /\ NoDup (recipients
              (step (Sample.withRecipients ["a@x.com"])
                    (ExcelImport (Some (Some [Sample.columnSheet Sample.cells]))))).
Proof.
  split.
  - apply (proj2 (proj2 recipients_no_duplicates)).
    apply ReachStep, ReachStep, ReachStep, ReachInit.
  - apply (proj1 (proj2 recipients_no_duplicates)
             (Sample.withRecipients ["a@x.com"])
             (Sample.withRecipients ["a@x.com"]));
      vm_compute; repeat constructor; simpl; intuition discriminate.
Defined.

End RecipientList.

(** ** Spreadsheet import *)

Section SpreadsheetImport.

Import RecipientsManager.

(** C5 (the claim as stated fails). No input makes the extraction pattern
    return a match that fails the validation rule once trimmed and
    lower-cased. *)
Lemma no_match_fails_validation :
  ~ exists cell m : string,
      In m (Regex.matchAll extractionRegex cell)
      /\ validateEmail (Js.toLowerCase (Js.trim m)) = false.
Proof.
  intros (cell & m & Hin & Hv).
  apply matchAll_Lang, extraction_validates in Hin. congruence.
Qed.

(** C5 (as amended). Every match of the extraction pattern passes the
    validation rule after trimming and lower-casing.  The classification
    step sends a string that fails the rule to the invalid list under the
    text it was given, not under the normalized text, once, and touches
    neither of the other two lists. *)
Theorem revalidation_of_matches (recipients : list string) (acc : importState)
  (cell m : string) :
  (In m (Regex.matchAll extractionRegex cell) ->
   validateEmail (Js.toLowerCase (Js.trim m)) = true)
  /\ (validateEmail (Js.toLowerCase (Js.trim m)) = false ->
      invalid (classify recipients acc m)
      = (if Js.includes (invalid acc) m then invalid acc else invalid acc ++ [m])
      /\ emails (classify recipients acc m) = emails acc
      /\ duplicates (classify recipients acc m) = duplicates acc).
Proof.
  split.
  - intros Hin. now apply matchAll_Lang, extraction_validates in Hin.
  - unfold classify. intros ->.
    destruct (Js.includes (invalid acc) m); simpl; auto.
Qed.

Lemma revalidation_of_matches_witness :
  validateEmail (Js.toLowerCase (Js.trim "A@X.COM")) = true
  /\ invalid (classify ["a@x.com"] emptyImport "Not-An-Email") = ["Not-An-Email"].
Proof.
  split.
  - apply (proj1 (revalidation_of_matches [] emptyImport "see A@X.COM" "A@X.COM")).
    vm_compute. left. reflexivity.
  - apply (proj2 (revalidation_of_matches ["a@x.com"] emptyImport
                    EmptyString "Not-An-Email")).
    reflexivity.
Defined.

(** Hence an import never reports an invalid address. *)
Lemma classify_invalid (recipients : list string) (acc : importState)
  (m : string) :
  Regex.Lang extractionRegex m -> invalid acc = [] ->
  invalid (classify recipients acc m) = [].
Proof.
  intros Hm Hacc. unfold classify. rewrite (extraction_validates _ Hm).
  destruct (Js.includes recipients _);
    [destruct (negb (Js.includes (duplicates acc) _))
    |destruct (negb (Js.includes (emails acc) _))]; assumption.
Qed.

Lemma fold_invalid {X : Type} (f : importState -> X -> importState)
  (l : list X) (acc : importState) :
  (forall a x, In x l -> invalid a = [] -> invalid (f a x) = []) ->
  invalid acc = [] -> invalid (fold_left f l acc) = [].
Proof.
  revert acc. induction l as [|x l IH]; intros acc Hf Hacc; [assumption|].
  simpl. apply IH.
  - intros a y Hy. apply Hf. now right.
  - apply Hf; [now left | assumption].
Qed.

Lemma scanCell_invalid (recipients : list string) (acc : importState) (c : cell) :
  invalid acc = [] -> invalid (scanCell recipients acc c) = [].
Proof.
  intros Hacc. destruct c as [s| | |]; simpl; try assumption.
  destruct (Js.truthy s); [|assumption].
  apply fold_invalid; [|assumption].
  intros a m Hm. apply classify_invalid. now apply matchAll_Lang in Hm.
Qed.

Lemma scanCells_invalid (recipients : list string) (acc : importState)
  (cs : list cell) :
  invalid acc = [] -> invalid (scanCells recipients acc cs) = [].
Proof.
  apply fold_invalid. intros a c _. apply scanCell_invalid.
Qed.

Lemma scanWorkbook_invalid (recipients : list string) (wb : workbook) :
  invalid (scanWorkbook recipients wb) = [].
Proof.
  apply fold_invalid; [|reflexivity].
  intros a ws _ Ha. unfold scanSheet.
  assert (invalid
            match withHeaders ws with
            | Some rows => fold_left (scanCells recipients) rows a
            | None => warn "Failed to parse with headers, trying raw data" a
            end = []) as H1.
  { destruct (withHeaders ws); [|assumption].
    apply fold_invalid; [|assumption].
    intros b cs _. apply scanCells_invalid. }
  destruct (rawData ws); [|assumption].
  apply fold_invalid; [|assumption].
  intros b row _ Hb. destruct row; [now apply scanCells_invalid | assumption].
Qed.

(** C1 (the claim as stated fails). Importing the four sample cells into
    the list ["a@x.com"] does not give the claimed classification: the
    invalid set is not {"not-an-email"}. *)
Lemma import_example_not_as_claimed :
  let r := scanWorkbook ["a@x.com"] [Sample.columnSheet Sample.cells] in
  ~ (emails r = ["b@y.com"; "c@z.com"]
     /\ duplicates r = ["a@x.com"]
     /\ (forall x, In x (invalid r) <-> x = "not-an-email")).
Proof.
  intros r (_ & _ & H).
  assert (In "not-an-email" (invalid r)) as Hin by now apply H.
  exact Hin.
Qed.

(** C1 (as amended). Importing the cells "a@x.com", "A@X.COM",
    "not-an-email", "b@y.com c@z.com" (laid out in one column or in one
    row) into the recipient list ["a@x.com"] gives new = b@y.com, c@z.com,
    duplicate = a@x.com and an empty invalid set: the cell "not-an-email"
    holds no match of the extraction pattern and is not classified.  The
    add callback is called exactly twice, for b@y.com and then c@z.com,
    the order of discovery. *)
Theorem import_example :
  Forall
    (fun ws =>
       let r := scanWorkbook ["a@x.com"] [ws] in
       let t := handleExcelImport ["a@x.com"] (Some (Some [ws])) in
       emails r = ["b@y.com"; "c@z.com"]
       /\ duplicates r = ["a@x.com"]
       /\ invalid r = []
       /\ Regex.matchAll extractionRegex "not-an-email" = []
       /\ addCalls t = ["b@y.com"; "c@z.com"]
       /\ toasts t
          = [ExcelImportComplete [ImportedSuccessfully 2; DuplicatesSkipped 1]])
    [Sample.columnSheet Sample.cells; Sample.rowSheet Sample.cells].
Proof.
  repeat constructor; vm_compute; reflexivity.
Qed.

(** The order of the add calls is the order of discovery, not the
    alphabetical one. *)
Example import_discovery_order :
  addCalls (handleExcelImport [] (Some (Some [Sample.rowSheet ["z@y.com, b@y.com"]])))
  = ["z@y.com"; "b@y.com"].
Proof. vm_compute. reflexivity. Qed.

(** C6. When the workbook cannot be parsed, the import shows the one
    "Import Failed" notification, calls the add callback not at all, and
    the recipient list (the whole state) stays as it was. *)
Theorem import_unparsable (st cur : ContactForm.state) :
  let t := handleExcelImport (ContactForm.recipients st) (Some None) in
  toasts t = [ImportFailed]
  /\ addCalls t = []
  /\ ContactForm.toasts (ContactForm.handle st (ContactForm.ExcelImport (Some None)))
     = [ImportFailed]
  /\ ContactForm.step st (ContactForm.ExcelImport (Some None)) = st
  /\ ContactForm.commit (ContactForm.lift st t) cur = cur.
Proof. repeat split. Qed.

End SpreadsheetImport.

(** All add calls of one import go to the callback of one render, which
    extends the same snapshot each time: of several new addresses only the
    last one is in the list afterwards. *)
Example import_example_store :
  ContactForm.recipients
    (ContactForm.step (Sample.withRecipients ["a@x.com"])
       (ContactForm.ExcelImport (Some (Some [Sample.columnSheet Sample.cells]))))
  = ["a@x.com"; "c@z.com"].
Proof. vm_compute. reflexivity. Qed.

(** ** Attachments and submission *)

Section Attachments.

Import ContactForm.

Lemma maxSize_bytes : maxSize = 10485760%N.
Proof. reflexivity. Qed.

Lemma toasts_FileTooLarge (l : list file) :
  toasts (map (fun f => Toast (FileTooLarge (name f))) l)
  = map (fun f => FileTooLarge (name f)) l.
Proof.
  induction l as [|f l IH]; [reflexivity|].
  unfold toasts in *. simpl. now rewrite IH.
Qed.

Lemma commit_toasts_only (l : list file) (st : state) :
  commit (map (fun f => Toast (FileTooLarge (name f))) l) st = st.
Proof. induction l as [|f l IH]; [reflexivity | exact IH]. Qed.

(** A batch that the count check lets through. *)
Lemma handleFileAttach_within_cap (st : state) (files : list file) :
  List.length (attachedFiles st) + List.length files <= maxFiles ->
  handleFileAttach st files
  = map (fun f => Toast (FileTooLarge (name f))) (filter tooLarge files)
    ++ [UpdateAttachedFiles
          (fun prev => prev ++ filter (fun f => negb (tooLarge f)) files)].
Proof.
  intros H. unfold handleFileAttach.
  destruct (Nat.ltb_spec maxFiles
              (List.length (attachedFiles st) + List.length files));
    [lia | reflexivity].
Qed.

(** A batch that the count check stops. *)
Lemma handleFileAttach_over_cap (st : state) (files : list file) :
  maxFiles < List.length (attachedFiles st) + List.length files ->
  handleFileAttach st files = [Toast TooManyFiles].
Proof.
  intros H. unfold handleFileAttach.
  destruct (Nat.ltb_spec maxFiles
              (List.length (attachedFiles st) + List.length files));
    [reflexivity | lia].
Qed.

(** C8 (the claim as stated fails). With four files staged, a batch of one
    small file and one file over 10 MB is turned down as a whole: the
    small file is not appended. *)
Lemma attach_batch_stopped_by_count :
  let batch := [Sample.small "ok.txt"; Sample.big "huge.zip"] in
  let st' := step Sample.staged4 (FileAttach batch) in
  attachedFiles st' = attachedFiles Sample.staged4
  /\ attachedFiles st' <> attachedFiles Sample.staged4 ++ [Sample.small "ok.txt"]
  /\ toasts (handle Sample.staged4 (FileAttach batch)) = [TooManyFiles].
Proof.
  cbv zeta. repeat split. vm_compute. discriminate.
Qed.

(** C8 (as amended). With 5 files staged, attaching any further file is
    turned down and the staged list stays as it was.  In a batch that keeps
    the total at 5 or below, every file over 10 MB (10485760 bytes) is
    turned down with a notification of its own, and the other files of the
    batch are appended in their order. *)
Theorem attach_cap_and_size (st : state) (files : list file) :
  (List.length (attachedFiles st) = 5 -> files <> [] ->
   step st (FileAttach files) = st
   /\ toasts (handle st (FileAttach files)) = [TooManyFiles])
  /\ (List.length (attachedFiles st) + List.length files <= 5 ->
      attachedFiles (step st (FileAttach files))
      = attachedFiles st
        ++ filter (fun f => (size f <=? 10485760)%N) files
      /\ toasts (handle st (FileAttach files))
         = map (fun f => FileTooLarge (name f))
               (filter (fun f => (10485760 <? size f)%N) files)
      /\ recipients (step st (FileAttach files)) = recipients st).
Proof.
  split.
  - intros Hk Hf. unfold step. cbn [handle].
    rewrite handleFileAttach_over_cap; [split; reflexivity|].
    destruct files; [contradiction|]. simpl. unfold maxFiles. lia.
  - intros Hk. unfold step. cbn [handle].
    rewrite (handleFileAttach_within_cap st files Hk).
    rewrite commit_app, commit_toasts_only, toasts_app, toasts_FileTooLarge.
    cbn. rewrite app_nil_r. repeat split.
    f_equal. apply filter_ext. intros f. unfold tooLarge.
    rewrite maxSize_bytes. now rewrite N.leb_antisym.
Qed.

Lemma attach_cap_and_size_witness :
  step Sample.staged5 (FileAttach [Sample.small "f6"]) = Sample.staged5
  /\ attachedFiles
       (step (Sample.withFiles [Sample.small "f1"])
             (FileAttach [Sample.small "ok.txt"; Sample.big "huge.zip";
                          Sample.small "also.txt"]))
     = [Sample.small "f1"; Sample.small "ok.txt"; Sample.small "also.txt"].
Proof.
  split.
  - apply (proj1 (attach_cap_and_size Sample.staged5 [Sample.small "f6"]));
      [reflexivity | discriminate].
  - apply (proj2 (attach_cap_and_size (Sample.withFiles [Sample.small "f1"])
                    [Sample.small "ok.txt"; Sample.big "huge.zip";
                     Sample.small "also.txt"])).
    simpl. lia.
Defined.

(** C10. Whenever the staged files and the selected batch together count
    more than 5, the whole batch is turned down with one notification and
    the state stays as it was, whatever the sizes of the files and however
    many of them would still fit. *)
Theorem attach_over_cap_rejects_batch (st : state) (files : list file) :
  5 < List.length (attachedFiles st) + List.length files ->
  handle st (FileAttach files) = [Toast TooManyFiles]
  /\ step st (FileAttach files) = st.
Proof.
  intros H. unfold step. cbn [handle].
  rewrite handleFileAttach_over_cap; [split; reflexivity | exact H].
Qed.

Lemma attach_over_cap_rejects_batch_witness :
  List.length (attachedFiles Sample.staged4) < 5
  /\ step Sample.staged4
       (FileAttach [Sample.small "ok.txt"; Sample.small "fits.txt"])
     = Sample.staged4.
Proof.
  split; [simpl; lia|].
  apply (attach_over_cap_rejects_batch Sample.staged4
           [Sample.small "ok.txt"; Sample.small "fits.txt"]).
  simpl. lia.
Defined.

(** C9. A submission made while the recipient list is empty shows the
    "No Recipients" error and nothing else: the handler returns before it
    sets the loading flag and before the simulated delay, and writes
    nothing to the state. *)
Theorem submit_without_recipients (st cur : state) :
  recipients st = [] ->
  onSubmit st = [Toast NoRecipients]
  /\ delays (handle st Submit) = []
  /\ entersLoading (handle st Submit) = false
  /\ reportsError (handle st Submit) = true
  /\ commit (handle st Submit) cur = cur.
Proof.
  intros H. cbn [handle]. unfold onSubmit. rewrite H. repeat split.
Qed.

Lemma submit_without_recipients_witness :
  delays (handle initial Submit) = [].
Proof.
  apply (submit_without_recipients initial initial). reflexivity.
Defined.

(** With a recipient in the list the delay does take place. *)
Example submit_with_recipient :
  delays (handle (Sample.withRecipients ["a@x.com"]) Submit) = [2000].
Proof. reflexivity. Qed.

End Attachments.

(** * Further properties of the components *)

(** ** The scan as one pass over the candidates *)

Section ScanFacts.

Import RecipientsManager Scan.

Variable recipients : list string.

Lemma same_refl (a : importState) : same a a.
Proof. repeat split. Qed.

Lemma same_trans (a b c : importState) : same a b -> same b c -> same a c.
Proof.
  intros (H1 & H2 & H3) (K1 & K2 & K3). repeat split; congruence.
Qed.

Lemma warn_same (text : string) (a : importState) : same (warn text a) a.
Proof. repeat split. Qed.

Lemma classify_same (a b : importState) (m : string) :
  same a b -> same (classify recipients a m) (classify recipients b m).
Proof.
  intros (H1 & H2 & H3). unfold classify. rewrite H1, H2, H3.
  destruct (validateEmail _).
  - destruct (Js.includes recipients _).
    + destruct (negb (Js.includes (duplicates b) _)); repeat split; simpl;
        congruence.
    + destruct (negb (Js.includes (emails b) _)); repeat split; simpl;
        congruence.
  - destruct (negb (Js.includes (invalid b) m)); repeat split; simpl;
      congruence.
Qed.

Lemma fold_classify_same (l : list string) (a b : importState) :
  same a b ->
  same (fold_left (classify recipients) l a) (fold_left (classify recipients) l b).
Proof.
  revert a b. induction l as [|m l IH]; intros a b H; [exact H|].
  simpl. apply IH. now apply classify_same.
Qed.

Lemma scanCell_fold (acc : importState) (c : cell) :
  scanCell recipients acc c
  = fold_left (classify recipients) (cellMatches c) acc.
Proof.
  destruct c as [s| | |]; simpl; try reflexivity.
  now destruct (Js.truthy s).
Qed.

Lemma scanCells_fold (acc : importState) (cs : list cell) :
  scanCells recipients acc cs
  = fold_left (classify recipients) (flat_map cellMatches cs) acc.
Proof.
  unfold scanCells. revert acc. induction cs as [|c cs IH]; intros acc;
    [reflexivity|].
  simpl. now rewrite fold_left_app, IH, scanCell_fold.
Qed.

Lemma scanRecords_fold (acc : importState) (rows : list (list cell)) :
  fold_left (scanCells recipients) rows acc
  = fold_left (classify recipients) (flat_map (flat_map cellMatches) rows) acc.
Proof.
  revert acc. induction rows as [|r rows IH]; intros acc; [reflexivity|].
  simpl. now rewrite fold_left_app, IH, scanCells_fold.
Qed.

Lemma scanRawRows_fold (acc : importState) (rows : list rawRow) :
  fold_left (scanRawRow recipients) rows acc
  = fold_left (classify recipients) (flat_map rowMatches rows) acc.
Proof.
  revert acc. induction rows as [|r rows IH]; intros acc; [reflexivity|].
  simpl. rewrite fold_left_app, IH. f_equal.
  destruct r; [apply scanCells_fold | reflexivity].
Qed.

Lemma scanSheet_same (a b : importState) (ws : worksheet) :
  same a b ->
  same (scanSheet recipients a ws)
       (fold_left (classify recipients) (sheetMatches ws) b).
Proof.
  intros H. unfold scanSheet, sheetMatches. rewrite fold_left_app.
  assert (same
            match withHeaders ws with
            | Some rows => fold_left (scanCells recipients) rows a
            | None => warn "Failed to parse with headers, trying raw data" a
            end
            (fold_left (classify recipients)
               match withHeaders ws with
               | Some rows => flat_map (flat_map cellMatches) rows
               | None => []
               end b)) as H1.
  { destruct (withHeaders ws) as [rows|].
    - rewrite scanRecords_fold. now apply fold_classify_same.
    - simpl. eapply same_trans; [apply warn_same | exact H]. }
  destruct (rawData ws) as [rows|].
  - rewrite scanRawRows_fold. now apply fold_classify_same.
  - simpl. eapply same_trans; [apply warn_same | exact H1].
Qed.

Lemma scanSheets_same (wb : workbook) (a b : importState) :
  same a b ->
  same (fold_left (scanSheet recipients) wb a)
       (fold_left (classify recipients) (workbookMatches wb) b).
Proof.
  revert a b. induction wb as [|ws wb IH]; intros a b H; [exact H|].
  unfold workbookMatches. simpl. rewrite fold_left_app.
  apply IH. now apply scanSheet_same.
Qed.

Lemma scanWorkbook_same (wb : workbook) :
  same (scanWorkbook recipients wb)
       (fold_left (classify recipients) (workbookMatches wb) emptyImport).
Proof. apply scanSheets_same, same_refl. Qed.

(** X1. The nested loops of the import (sheets, two conversions per sheet,
    rows, cells, matches) amount to one left-to-right pass of the
    classification step over the candidates of the workbook: the new, the
    duplicate and the invalid list come out the same.  A conversion that
    throws contributes no candidate. *)
Theorem scanWorkbook_fold (wb : workbook) :
  let flat := fold_left (classify recipients) (workbookMatches wb) emptyImport in
  emails (scanWorkbook recipients wb) = emails flat
  /\ duplicates (scanWorkbook recipients wb) = duplicates flat
  /\ invalid (scanWorkbook recipients wb) = invalid flat.
Proof. exact (scanWorkbook_same wb). Qed.

End ScanFacts.

(** ** What an import finds *)

Section ImportResults.

Import RecipientsManager Scan.

Ltac ascii_cases c :=
  destruct c as [[] [] [] [] [] [] [] []]; vm_compute; reflexivity.

Lemma toLowerCaseChar_idem (c : ascii) :
  Js.toLowerCaseChar (Js.toLowerCaseChar c) = Js.toLowerCaseChar c.
Proof. ascii_cases c. Qed.

Lemma toLowerCase_idem (s : string) :
  Js.toLowerCase (Js.toLowerCase s) = Js.toLowerCase s.
Proof.
  induction s as [|c s IH]; simpl; [reflexivity|].
  now rewrite toLowerCaseChar_idem, IH.
Qed.

Lemma NoDup_push (l : list string) (x : string) :
  NoDup l -> Js.includes l x = false -> NoDup (l ++ [x]).
Proof.
  intros Hl Hx. apply NoDup_snoc; [assumption | now apply includes_false].
Qed.

Lemma wellFormed_empty (recipients : list string) :
  wellFormed recipients emptyImport.
Proof.
  unfold wellFormed. simpl.
  split; [constructor|]. split; [constructor|]. split; intros e [].
Qed.

Lemma classify_wellFormed (recipients : list string) (acc : importState)
  (m : string) :
  wellFormed recipients acc -> wellFormed recipients (classify recipients acc m).
Proof.
  intros H. pose proof H as (He & Hd & Hes & Hds). unfold classify.
  destruct (validateEmail (Js.toLowerCase (Js.trim m))) eqn:Hv.
  - destruct (Js.includes recipients _) eqn:Hr.
    + destruct (Js.includes (duplicates acc) _) eqn:Hi; simpl; [exact H|].
      split; [exact He|]. split; [now apply NoDup_push|].
      split; [exact Hes|]. simpl.
      intros e Hin. apply in_app_iff in Hin as [Hin|[<-|[]]]; [now apply Hds|].
      split; [now apply includes_In|].
      split; [assumption | apply toLowerCase_idem].
    + destruct (Js.includes (emails acc) _) eqn:Hi; simpl; [exact H|].
      split; [now apply NoDup_push|]. split; [exact Hd|].
      split; [|exact Hds]. simpl.
      intros e Hin. apply in_app_iff in Hin as [Hin|[<-|[]]]; [now apply Hes|].
      split; [now apply includes_false|].
      split; [assumption | apply toLowerCase_idem].
  - destruct (negb (Js.includes (invalid acc) m)); exact H.
Qed.

Lemma fold_wellFormed (recipients : list string) (l : list string)
  (acc : importState) :
  wellFormed recipients acc ->
  wellFormed recipients (fold_left (classify recipients) l acc).
Proof.
  revert acc. induction l as [|m l IH]; intros acc H; [exact H|].
  simpl. apply IH. now apply classify_wellFormed.
Qed.

Lemma same_wellFormed (recipients : list string) (a b : importState) :
  same a b -> wellFormed recipients b -> wellFormed recipients a.
Proof.
  intros (H1 & H2 & _). unfold wellFormed. now rewrite H1, H2.
Qed.

Lemma scanWorkbook_wellFormed (recipients : list string) (wb : workbook) :
  wellFormed recipients (scanWorkbook recipients wb).
Proof.
  eapply same_wellFormed; [apply scanWorkbook_same|].
  apply fold_wellFormed, wellFormed_empty.
Qed.

Lemma addCalls_parsed (recipients : list string) (wb : workbook) :
  addCalls (handleExcelImport recipients (Some (Some wb)))
  = emails (scanWorkbook recipients wb).
Proof.
  simpl. unfold addCalls. rewrite !flat_map_app. simpl.
  set (r := scanWorkbook recipients wb).
  assert (forall l, flat_map
            (fun e => match e with OnAddRecipient x => [x] | _ => [] end)
            (map ConsoleWarn l) = []) as ->.
  { induction l as [|x l IH]; [reflexivity | exact IH]. }
  rewrite app_nil_r. simpl.
  induction (emails r) as [|x l IH]; [reflexivity|]. simpl. now rewrite IH.
Qed.

(** X2. Whatever the workbook and the recipient list, the add calls of an
    import name pairwise different addresses, none of which is in the
    recipient list the import was given; each of them passes the validation
    rule and is in lower case. *)
Theorem import_add_calls (recipients : list string)
  (file : option (option workbook)) :
  let calls := addCalls (handleExcelImport recipients file) in
  NoDup calls
  /\ (forall e, In e calls ->
        ~ In e recipients /\ validateEmail e = true /\ Js.toLowerCase e = e).
Proof.
  destruct file as [[wb|]|].
  - cbv zeta. rewrite addCalls_parsed.
    destruct (scanWorkbook_wellFormed recipients wb) as (He & _ & Hes & _).
    split; assumption.
  - split; [constructor | intros e []].
  - split; [constructor | intros e []].
Qed.

Lemma import_add_calls_witness :
  NoDup (RecipientsManager.addCalls
           (RecipientsManager.handleExcelImport ["a@x.com"]
              (Some (Some [Sample.columnSheet Sample.cells])))).
Proof.
  apply (import_add_calls ["a@x.com"]
           (Some (Some [Sample.columnSheet Sample.cells]))).
Defined.

(** X3. The duplicates an import reports are pairwise different addresses
    of the recipient list it was given, so no address is counted both as
    new and as duplicate. *)
Theorem import_duplicates (recipients : list string) (wb : workbook) :
  let r := scanWorkbook recipients wb in
  NoDup (duplicates r)
  /\ (forall e, In e (duplicates r) -> In e recipients)
  /\ (forall e, In e (emails r) -> ~ In e (duplicates r)).
Proof.
  destruct (scanWorkbook_wellFormed recipients wb) as (_ & Hd & Hes & Hds).
  repeat split; [assumption | intros e H; now apply Hds|].
  intros e He Hd'. apply Hes in He as [He _]. apply Hds in Hd' as [Hd' _].
  contradiction.
Qed.

Lemma import_duplicates_witness :
  NoDup (RecipientsManager.duplicates
           (RecipientsManager.scanWorkbook ["a@x.com"]
              [Sample.columnSheet Sample.cells])).
Proof.
  apply (import_duplicates ["a@x.com"] [Sample.columnSheet Sample.cells]).
Defined.

Lemma toasts_of_calls (l : list string) (f : string -> effect) :
  (forall x, match f x with Toast _ => False | _ => True end) ->
  toasts (map f l) = [].
Proof.
  intros Hf. induction l as [|x l IH]; [reflexivity|].
  unfold toasts in *. simpl. rewrite IH. specialize (Hf x).
  destruct (f x); try reflexivity. contradiction.
Qed.

(** X4. A workbook that parses leads to exactly one notification.  It is
    the error "No Emails Found" exactly when the import found neither a new
    nor a duplicate address; otherwise it is "Excel Import Complete" with
    the number of new addresses and the number of duplicates, each left out
    when zero, and never an "invalid skipped" part. *)
Theorem import_notification (recipients : list string) (wb : workbook) :
  let r := scanWorkbook recipients wb in
  toasts (handleExcelImport recipients (Some (Some wb)))
  = [ match emails r, duplicates r with
      | [], [] => NoEmailsFound
      | [], d :: ds => ExcelImportComplete [DuplicatesSkipped (List.length (d :: ds))]
      | e :: es, [] => ExcelImportComplete [ImportedSuccessfully (List.length (e :: es))]
      | e :: es, d :: ds =>
          ExcelImportComplete [ImportedSuccessfully (List.length (e :: es));
                               DuplicatesSkipped (List.length (d :: ds))]
      end ].
Proof.
  cbv zeta. cbn [handleExcelImport onload]. unfold toasts.
  rewrite !flat_map_app.
  fold (toasts (map ConsoleWarn (warnings (scanWorkbook recipients wb)))).
  fold (toasts (map OnAddRecipient (emails (scanWorkbook recipients wb)))).
  rewrite !toasts_of_calls by (intros; exact I).
  unfold messages. rewrite (scanWorkbook_invalid recipients wb).
  destruct (emails (scanWorkbook recipients wb));
    destruct (duplicates (scanWorkbook recipients wb)); reflexivity.
Qed.

End ImportResults.

(** ** Scanning the same candidates again *)

Section Rescan.

Import RecipientsManager Scan.

Lemma includes_push (l : list string) (x y : string) :
  Js.includes (l ++ [x]) y = Js.includes l y || String.eqb y x.
Proof.
  unfold Js.includes. rewrite existsb_app. simpl. now rewrite orb_false_r.
Qed.

Lemma classify_id (recipients : list string) (acc : importState) (m : string) :
  seen recipients acc m = true -> classify recipients acc m = acc.
Proof.
  unfold seen, classify. cbv zeta.
  destruct (validateEmail _); [destruct (Js.includes recipients _)|];
    intros ->; reflexivity.
Qed.

Lemma classify_seen (recipients : list string) (acc : importState) (m : string) :
  seen recipients (classify recipients acc m) m = true.
Proof.
  unfold seen, classify. cbv zeta.
  destruct (validateEmail _) eqn:Hv.
  - destruct (Js.includes recipients _) eqn:Hr.
    + destruct (Js.includes (duplicates acc) _) eqn:Hi; simpl;
        [assumption|]. now rewrite includes_push, String.eqb_refl, orb_true_r.
    + destruct (Js.includes (emails acc) _) eqn:Hi; simpl;
        [assumption|]. now rewrite includes_push, String.eqb_refl, orb_true_r.
  - destruct (Js.includes (invalid acc) m) eqn:Hi; simpl;
      [assumption|]. now rewrite includes_push, String.eqb_refl, orb_true_r.
Qed.

Lemma classify_keeps_seen (recipients : list string) (acc : importState)
  (m m' : string) :
  seen recipients acc m = true ->
  seen recipients (classify recipients acc m') m = true.
Proof.
  unfold seen, classify. cbv zeta. intros H.
  destruct (validateEmail (Js.toLowerCase (Js.trim m'))).
  - destruct (Js.includes recipients (Js.toLowerCase (Js.trim m'))).
    + destruct (Js.includes (duplicates acc) (Js.toLowerCase (Js.trim m')));
        simpl; [assumption|].
      destruct (validateEmail (Js.toLowerCase (Js.trim m))); [|assumption].
      destruct (Js.includes recipients (Js.toLowerCase (Js.trim m)));
        [|assumption]. now rewrite includes_push, H.
    + destruct (Js.includes (emails acc) (Js.toLowerCase (Js.trim m')));
        simpl; [assumption|].
      destruct (validateEmail (Js.toLowerCase (Js.trim m))); [|assumption].
      destruct (Js.includes recipients (Js.toLowerCase (Js.trim m)));
        [assumption|]. now rewrite includes_push, H.
  - destruct (Js.includes (invalid acc) m'); simpl; [assumption|].
    destruct (validateEmail (Js.toLowerCase (Js.trim m))); [assumption|].
    now rewrite includes_push, H.
Qed.

Lemma fold_keeps_seen (recipients : list string) (l : list string)
  (acc : importState) (m : string) :
  seen recipients acc m = true ->
  seen recipients (fold_left (classify recipients) l acc) m = true.
Proof.
  revert acc. induction l as [|x l IH]; intros acc H; [exact H|].
  simpl. apply IH. now apply classify_keeps_seen.
Qed.

Lemma fold_seen (recipients : list string) (l : list string)
  (acc : importState) (m : string) :
  In m l -> seen recipients (fold_left (classify recipients) l acc) m = true.
Proof.
  revert acc. induction l as [|x l IH]; intros acc; [intros []|].
  intros [->|H]; simpl; [|now apply IH].
  apply fold_keeps_seen, classify_seen.
Qed.

Lemma fold_id (recipients : list string) (l : list string) (acc : importState) :
  (forall m, In m l -> seen recipients acc m = true) ->
  fold_left (classify recipients) l acc = acc.
Proof.
  induction l as [|x l IH]; intros H; [reflexivity|].
  simpl. rewrite classify_id by (apply H; now left).
  apply IH. intros m Hm. apply H. now right.
Qed.

(** X5. Sheets that only repeat candidates already met (the same cells read
    through the other conversion, a copy of a sheet) change none of the
    three result lists of an import. *)
Theorem rescan_changes_nothing (recipients : list string) (wb wb' : workbook) :
  incl (workbookMatches wb') (workbookMatches wb) ->
  same (scanWorkbook recipients (wb ++ wb')) (scanWorkbook recipients wb).
Proof.
  intros Hincl.
  eapply same_trans; [apply scanWorkbook_same|].
  unfold workbookMatches. rewrite flat_map_app, fold_left_app.
  fold (workbookMatches wb). fold (workbookMatches wb').
  rewrite fold_id.
  - destruct (scanWorkbook_same recipients wb) as (H1 & H2 & H3).
    repeat split; congruence.
  - intros m Hm. apply fold_seen. now apply Hincl.
Qed.

Lemma rescan_changes_nothing_witness :
  same (scanWorkbook ["a@x.com"]
          ([Sample.columnSheet Sample.cells] ++ [Sample.rowSheet Sample.cells]))
       (scanWorkbook ["a@x.com"] [Sample.columnSheet Sample.cells]).
Proof.
  apply (rescan_changes_nothing ["a@x.com"]
           [Sample.columnSheet Sample.cells] [Sample.rowSheet Sample.cells]).
  vm_compute. tauto.
Defined.

Lemma fold_no_new (recipients : list string) (l : list string)
  (acc : importState) :
  (forall m, In m l ->
     validateEmail (Js.toLowerCase (Js.trim m)) = true ->
     Js.includes recipients (Js.toLowerCase (Js.trim m)) = true) ->
  emails (fold_left (classify recipients) l acc) = emails acc.
Proof.
  revert acc. induction l as [|x l IH]; intros acc H; [reflexivity|].
  simpl. rewrite IH by (intros m Hm; apply H; now right).
  unfold classify.
  destruct (validateEmail (Js.toLowerCase (Js.trim x))) eqn:Hv.
  - rewrite (H x (or_introl eq_refl) Hv).
    now destruct (negb (Js.includes (duplicates acc) _)).
  - now destruct (negb (Js.includes (invalid acc) x)).
Qed.

(** X6. Once the recipient list holds what it held before an import and
    every address that import found new, importing the same workbook again
    finds nothing new and calls the add callback not at all. *)
Theorem reimport_adds_nothing (recipients recipients' : list string)
  (wb : workbook) :
  incl recipients recipients' ->
  incl (emails (scanWorkbook recipients wb)) recipients' ->
  emails (scanWorkbook recipients' wb) = []
  /\ addCalls (handleExcelImport recipients' (Some (Some wb))) = [].
Proof.
  intros Hr He.
  assert (emails (scanWorkbook recipients' wb) = []) as E.
  { destruct (scanWorkbook_same recipients' wb) as (-> & _ & _).
    rewrite fold_no_new; [reflexivity|].
    intros m Hm Hv. apply includes_In.
    pose proof (fold_seen recipients _ emptyImport m Hm) as Hs.
    unfold seen in Hs. cbv zeta in Hs. rewrite Hv in Hs.
    destruct (scanWorkbook_same recipients wb) as (H1 & _ & _).
    destruct (Js.includes recipients _) eqn:Hi.
    - apply Hr. now apply includes_In.
    - apply He. rewrite H1. now apply includes_In. }
  split; [exact E | now rewrite addCalls_parsed].
Qed.

Lemma reimport_adds_nothing_witness :
  addCalls (handleExcelImport ["a@x.com"; "b@y.com"; "c@z.com"]
              (Some (Some [Sample.columnSheet Sample.cells]))) = [].
Proof.
  apply (reimport_adds_nothing ["a@x.com"] ["a@x.com"; "b@y.com"; "c@z.com"]
           [Sample.columnSheet Sample.cells]).
  - vm_compute. tauto.
  - vm_compute. tauto.
Defined.

End Rescan.

(** ** The validation rule and the extraction pattern *)

Section Patterns.

Import RecipientsManager.

(** X7. [validateEmail] accepts exactly the strings local@domain.suffix
    whose three parts are non-empty and hold neither white space nor "@";
    the domain part may itself contain dots. *)
Theorem validateEmail_iff (email : string) :
  validateEmail email = true
  <-> exists a b c,
        email = (a ++ String "@" (b ++ String "." c))%string
        /\ Regex.allChars notSpaceAt a = true /\ a <> EmptyString
        /\ Regex.allChars notSpaceAt b = true /\ b <> EmptyString
        /\ Regex.allChars notSpaceAt c = true /\ c <> EmptyString.
Proof.
  unfold validateEmail. rewrite testAnchored_Lang, emailRegex_shape.
  assert (forall s : string, 1 <= String.length s <-> s <> EmptyString) as L.
  { intros [|x s]; simpl; split; intros H; try lia; congruence. }
  split; intros (a & b & c & H); exists a, b, c;
    rewrite ?L in *; rewrite <- ?L in *; exact H.
Qed.

Lemma validateEmail_no_space (email : string) :
  validateEmail email = true ->
  Regex.allChars (fun c => negb (Js.isWhiteSpace c)) email = true.
Proof.
  intros H. apply testAnchored_Lang, emailRegex_shape in H.
  destruct H as (a & b & c & -> & Ha & _ & Hb & _ & Hc & _).
  assert (forall x, notSpaceAt x = true -> negb (Js.isWhiteSpace x) = true) as W.
  { intros x Hx. apply notSpaceAt_noSpace in Hx. now rewrite Hx. }
  rewrite allChars_app. cbn [Regex.allChars]. rewrite allChars_app.
  cbn [Regex.allChars].
  rewrite (allChars_weaken _ _ _ W Ha), (allChars_weaken _ _ _ W Hb),
    (allChars_weaken _ _ _ W Hc).
  reflexivity.
Qed.

(** X8. The manual add validates the input as typed, not trimmed: an input
    that is not blank but holds a white-space character anywhere (a leading
    or trailing space included) is turned down with "Invalid Email Format"
    and nothing else happens. *)
Theorem add_with_space_rejected (recipients : list string) (input : string) :
  Js.whitespaceOnly input = false ->
  Regex.allChars (fun c => negb (Js.isWhiteSpace c)) input = false ->
  handleAddRecipient recipients input = [Toast InvalidEmailFormat].
Proof.
  intros Hb Hs. unfold handleAddRecipient.
  destruct (Js.truthy (Js.trim input)) eqn:Et.
  - destruct (validateEmail input) eqn:Ev; [|reflexivity].
    apply validateEmail_no_space in Ev. congruence.
  - apply trim_falsy in Et. congruence.
Qed.

Lemma add_with_space_rejected_witness :
  handleAddRecipient [] " a@x.com" = [Toast InvalidEmailFormat].
Proof.
  apply (add_with_space_rejected [] " a@x.com"); reflexivity.
Defined.

Lemma matchAllFrom_substring (r : Regex.regex) (s : string) (skip : nat)
  (m : string) :
  In m (Regex.matchAllFrom r s skip) ->
  exists pre post, s = (pre ++ m ++ post)%string.
Proof.
  revert skip. induction s as [|c s IH]; intros skip;
    cbn [Regex.matchAllFrom].
  - destruct skip; [|intros []].
    destruct (Regex.exec r EmptyString) as [rest|]; [|intros []].
    intros [<-|[]]. now exists EmptyString, EmptyString.
  - assert (forall n, In m (Regex.matchAllFrom r s n) ->
              exists pre post, String c s = (pre ++ m ++ post)%string) as Step.
    { intros n H. destruct (IH _ H) as (pre & post & ->).
      now exists (String c pre), post. }
    destruct skip as [|n]; [|apply Step].
    destruct (Regex.exec r (String c s)) as [rest|] eqn:H; [|apply Step].
    cbn zeta. intros [<-|Hin]; [|now apply Step in Hin].
    destruct (run_sound _ _ _ _ H) as (w & rest' & Hs & Hw & Hk).
    injection Hk as ->. rewrite Hs, substring_prefix.
    now exists EmptyString, rest.
Qed.

(** X9. Every candidate that the extraction pattern returns for a cell is a
    contiguous piece of the cell text of the form local@domain.suffix: a
    non-empty local part of letters, digits and [._%+-], a non-empty domain
    part of letters, digits, dots and hyphens, and a suffix of at least two
    letters. *)
Theorem extraction_matches (cell m : string) :
  In m (Regex.matchAll extractionRegex cell) ->
  (exists pre post, cell = (pre ++ m ++ post)%string)
  /\ exists a b c,
       m = (a ++ String "@" (b ++ String "." c))%string
       /\ Regex.allChars isLocalChar a = true /\ 1 <= String.length a
       /\ Regex.allChars isDomainChar b = true /\ 1 <= String.length b
       /\ Regex.allChars isLetter c = true /\ 2 <= String.length c.
Proof.
  intros H. split.
  - now apply matchAllFrom_substring in H.
  - now apply matchAll_Lang, extractionRegex_shape in H.
Qed.

Lemma extraction_matches_witness :
  exists pre post, "mail b@y.com, c@z.com" = (pre ++ "c@z.com" ++ post)%string.
Proof.
  apply (extraction_matches "mail b@y.com, c@z.com" "c@z.com").
  vm_compute. tauto.
Defined.

End Patterns.

(** ** Removing recipients and the effect of an import on the list *)

Section ListUpdates.

Import ContactForm.

Lemma filter_other_absent (l : list string) (x : string) :
  ~ In x l -> filter (fun r => negb (String.eqb r x)) l = l.
Proof.
  induction l as [|y l IH]; intros H; [reflexivity|].
  simpl. destruct (String.eqb_spec y x) as [->|Hne].
  - exfalso. apply H. now left.
  - simpl. f_equal. apply IH. intros Hx. apply H. now right.
Qed.

Lemma filter_other_length (l : list string) (x : string) :
  NoDup l -> In x l ->
  S (List.length (filter (fun r => negb (String.eqb r x)) l)) = List.length l.
Proof.
  induction l as [|y l IH]; intros Hn Hx; [destruct Hx|].
  inversion Hn as [|? ? Hy Hl]; subst. simpl.
  destruct (String.eqb_spec y x) as [->|Hne]; simpl.
  - now rewrite filter_other_absent.
  - destruct Hx as [->|Hx]; [contradiction|]. now rewrite IH.
Qed.

(** X10. Removing an address takes out every entry equal to it and keeps
    the others in their order.  In a duplicate-free list that holds the
    address the length drops by exactly one; a list that does not hold it
    is left as it was.  The "Recipient Removed" notification is shown in
    both cases. *)
Theorem remove_recipient (st : state) (email : string) :
  recipients (step st (Remove email))
  = filter (fun r => negb (String.eqb r email)) (recipients st)
  /\ ~ In email (recipients (step st (Remove email)))
  /\ (forall x, x <> email ->
        (In x (recipients (step st (Remove email))) <-> In x (recipients st)))
  /\ (NoDup (recipients st) -> In email (recipients st) ->
      S (List.length (recipients (step st (Remove email))))
      = List.length (recipients st))
  /\ (~ In email (recipients st) ->
      recipients (step st (Remove email)) = recipients st)
  /\ toasts (handle st (Remove email)) = [RecipientRemoved email].
Proof.
  assert (recipients (step st (Remove email))
          = filter (fun r => negb (String.eqb r email)) (recipients st)) as E
    by reflexivity.
  rewrite E. split; [reflexivity|]. split.
  { rewrite filter_In, negb_true_iff, String.eqb_neq. tauto. }
  split.
  { intros x Hx. rewrite filter_In, negb_true_iff, String.eqb_neq. tauto. }
  split; [apply filter_other_length|].
  split; [apply filter_other_absent | reflexivity].
Qed.

Lemma remove_recipient_witness :
  S (List.length
       (recipients (step (Sample.withRecipients ["a@x.com"; "b@y.com"; "c@z.com"])
                         (Remove "b@y.com"))))
  = 3.
Proof.
  apply (remove_recipient (Sample.withRecipients ["a@x.com"; "b@y.com"; "c@z.com"])
           "b@y.com").
  - simpl. repeat constructor; simpl; intuition discriminate.
  - simpl. tauto.
Defined.

(** X11. Adding a valid address that is not in the list and removing it
    again gives back the list as it was. *)
Theorem add_then_remove (st : state) (email : string) :
  RecipientsManager.validateEmail email = true ->
  Js.includes (recipients st) email = false ->
  recipients (step (step st (Add email)) (Remove email)) = recipients st.
Proof.
  intros Hv Hi.
  assert (recipients (step st (Add email)) = recipients st ++ [email]) as E.
  { unfold step. now rewrite (handle_Add_accepted _ _ Hv Hi). }
  change (recipients (step (step st (Add email)) (Remove email)))
    with (filter (fun r => negb (String.eqb r email))
            (recipients (step st (Add email)))).
  rewrite E, filter_app. simpl. rewrite String.eqb_refl. simpl.
  rewrite app_nil_r. apply filter_other_absent. now apply includes_false.
Qed.

Lemma add_then_remove_witness :
  recipients (step (step (Sample.withRecipients ["a@x.com"]) (Add "b@y.com"))
                   (Remove "b@y.com"))
  = ["a@x.com"].
Proof.
  apply (add_then_remove (Sample.withRecipients ["a@x.com"]) "b@y.com");
    reflexivity.
Defined.

(** X12. On a duplicate-free list the "Clear All" button of
    RecipientsManager leaves every entry but the last one, so the list is
    empty afterwards exactly when it held at most one entry. *)
Theorem clearAll_leaves_all_but_last (st : state) :
  NoDup (recipients st) ->
  recipients (step st ClearAll) = removelast (recipients st)
  /\ (recipients (step st ClearAll) = [] <-> List.length (recipients st) <= 1).
Proof.
  intros Hn. rewrite (clearAll_result st Hn). split; [reflexivity|].
  destruct (recipients st) as [|x [|y l]]; simpl.
  - split; [lia | reflexivity].
  - split; [lia | reflexivity].
  - split; [discriminate | lia].
Qed.

Lemma clearAll_leaves_all_but_last_witness :
  recipients (step (Sample.withRecipients ["a@x.com"; "b@y.com"; "c@z.com"])
                   ClearAll)
  = ["a@x.com"; "b@y.com"].
Proof.
  apply (clearAll_leaves_all_but_last
           (Sample.withRecipients ["a@x.com"; "b@y.com"; "c@z.com"])).
  simpl. repeat constructor; simpl; intuition discriminate.
Defined.

(** The store after the add calls of one import: every call extends the
    same snapshot, and the last write stays. *)
Lemma commit_additions (snap st : state) (l : list string) :
  (forall e, In e l ->
     Js.truthy e = true /\ Js.includes (recipients snap) e = false) ->
  recipients (commit (lift snap (map RecipientsManager.OnAddRecipient l)) st)
  = match rev l with
    | [] => recipients st
    | x :: _ => recipients snap ++ [x]
    end.
Proof.
  induction l as [|y l IH] using rev_ind; intros H; [reflexivity|].
  rewrite map_app, lift_app, commit_app, rev_app_distr. simpl.
  unfold handleAddRecipient.
  destruct (H y) as [-> ->]; [apply in_app_iff; right; now left|].
  reflexivity.
Qed.

Lemma commit_warnings (snap st : state) (l : list string) :
  commit (lift snap (map RecipientsManager.ConsoleWarn l)) st = st.
Proof. induction l as [|x l IH]; [reflexivity | exact IH]. Qed.

(** X13. After the import of a workbook that parses, the recipient list is
    the list the import was given followed by the last address found new,
    and it is unchanged when no address was found new: of several new
    addresses only the last one is kept, because every add call extends the
    list of the same render. *)
Theorem import_updates_list (st : state) (wb : RecipientsManager.workbook) :
  recipients (step st (ExcelImport (Some (Some wb))))
  = match rev (RecipientsManager.emails
                 (RecipientsManager.scanWorkbook (recipients st) wb)) with
    | [] => recipients st
    | x :: _ => recipients st ++ [x]
    end.
Proof.
  unfold step. cbn [handle RecipientsManager.handleExcelImport
                    RecipientsManager.onload].
  rewrite !lift_app, !commit_app, commit_warnings.
  change (recipients (commit (lift st [RecipientsManager.Toast ?t]) ?s))
    with (recipients s).
  apply commit_additions. intros e He.
  destruct (scanWorkbook_wellFormed (recipients st) wb) as (_ & _ & Hes & _).
  destruct (Hes e He) as (Hn & Hv & _).
  split; [now apply validateEmail_not_blank | now apply includes_false].
Qed.

End ListUpdates.

(** ** Staged files and the submit button *)

Section Staging.

Import ContactForm Render.

(** The handlers of the recipients panel write to [recipients] only. *)
Lemma lift_frame (snap : state) (t : list RecipientsManager.effect) (st : state) :
  attachedFiles (commit (lift snap t) st) = attachedFiles st
  /\ isLoading (commit (lift snap t) st) = isLoading st.
Proof.
  revert st. induction t as [|e t IH]; intros st; [now split|].
  change (lift snap (e :: t)) with (dispatch snap e ++ lift snap t).
  rewrite commit_app.
  destruct (IH (commit (dispatch snap e) st)) as [-> ->].
  destruct e; simpl; try (now split).
  unfold handleAddRecipient.
  destruct (Js.truthy email && negb (Js.includes (recipients snap) email));
    now split.
Qed.

Lemma removeAt_firstn_skipn {A : Type} (index : nat) (l : list A) :
  removeAt index l = firstn index l ++ skipn (S index) l.
Proof.
  revert index. induction l as [|x l IH]; intros [|i]; simpl; try reflexivity.
  f_equal. rewrite IH. reflexivity.
Qed.

Lemma removeAt_Forall {A : Type} (P : A -> Prop) (index : nat) (l : list A) :
  Forall P l -> Forall P (removeAt index l).
Proof.
  intros H. revert index. induction H as [|x l Hx Hl IH]; intros [|i]; simpl;
    try constructor; auto.
Qed.

Lemma removeAt_length {A : Type} (index : nat) (l : list A) :
  List.length (removeAt index l)
  = if index <? List.length l then List.length l - 1 else List.length l.
Proof.
  revert index. induction l as [|x l IH]; intros [|i]; simpl; try reflexivity.
  - lia.
  - rewrite IH. change (S i <? S (List.length l)) with (i <? List.length l).
    destruct (Nat.ltb_spec i (List.length l)); lia.
Qed.

(** X14. Removing the staged file at an index takes out that one file and
    keeps the others in their order; an index past the end changes
    nothing.  The recipient list is not touched. *)
Theorem remove_file (st : state) (index : nat) :
  attachedFiles (step st (RemoveFile index))
  = firstn index (attachedFiles st) ++ skipn (S index) (attachedFiles st)
  /\ List.length (attachedFiles (step st (RemoveFile index)))
     = (if index <? List.length (attachedFiles st)
        then List.length (attachedFiles st) - 1
        else List.length (attachedFiles st))
  /\ (List.length (attachedFiles st) <= index ->
      step st (RemoveFile index) = st)
  /\ recipients (step st (RemoveFile index)) = recipients st.
Proof.
  change (attachedFiles (step st (RemoveFile index)))
    with (removeAt index (attachedFiles st)).
  split; [apply removeAt_firstn_skipn|].
  split; [apply removeAt_length|].
  split; [|reflexivity].
  intros H. unfold step. cbn. destruct st as [r fs b]. simpl in *.
  f_equal. rewrite removeAt_firstn_skipn.
  rewrite firstn_all2 by assumption.
  rewrite skipn_all2 by lia. apply app_nil_r.
Qed.

Lemma remove_file_witness :
  step Sample.staged4 (RemoveFile 4) = Sample.staged4.
Proof.
  apply (remove_file Sample.staged4 4). simpl. lia.
Defined.

Lemma step_withinLimits (st : state) (ev : event) :
  withinLimits st -> withinLimits (step st ev).
Proof.
  intros [Hlen Hsz]. unfold withinLimits, step.
  destruct ev as [input|email| | |upload|files|index|]; cbn [handle].
  - destruct (lift_frame st
                (RecipientsManager.handleAddRecipient (recipients st) input) st)
      as [-> _]; now split.
  - destruct (lift_frame st (RecipientsManager.handleRemoveRecipient email) st)
      as [-> _]; now split.
  - destruct (lift_frame st (RecipientsManager.clearAll (recipients st)) st)
      as [-> _]; now split.
  - now split.
  - destruct (lift_frame st
                (RecipientsManager.handleExcelImport (recipients st) upload) st)
      as [-> _]; now split.
  - unfold handleFileAttach.
    destruct (Nat.ltb_spec maxFiles
                (List.length (attachedFiles st) + List.length files)) as [H|H];
      [now split|].
    rewrite commit_app, commit_toasts_only. cbn. split.
    + rewrite length_app.
      pose proof (filter_length_le (fun f => negb (tooLarge f)) files).
      unfold maxFiles in H. lia.
    + apply Forall_app. split; [assumption|].
      apply Forall_forall. intros f Hf. apply filter_In in Hf as [_ Hf].
      unfold tooLarge in Hf. rewrite maxSize_bytes in Hf.
      apply negb_true_iff, N.ltb_ge in Hf. exact Hf.
  - cbn. split.
    + rewrite removeAt_length.
      destruct (index <? List.length (attachedFiles st)); lia.
    + now apply removeAt_Forall.
  - unfold onSubmit. destruct (List.length (recipients st) =? 0); cbn.
    + now split.
    + split; [lia | constructor].
Qed.

(** X15. Whatever the user does, in whatever order, the form never stages
    more than 5 files and never stages a file over 10 MB (10485760
    bytes). *)
Theorem staging_limits (evs : list event) : withinLimits (after evs).
Proof.
  unfold after.
  assert (withinLimits initial) as H0 by (split; [simpl; lia | constructor]).
  revert H0. generalize initial.
  induction evs as [|ev evs IH]; intros st H; [exact H|].
  simpl. apply IH. now apply step_withinLimits.
Qed.

(** X16. Whenever the submit button is enabled, the submission takes the
    send path: no error is shown, the delay of 2000 ms takes place once,
    the notification names the number of recipients and of attachments,
    and afterwards the form is back in its initial state, the button
    disabled again. *)
Theorem submit_when_enabled (st : state) :
  submitDisabled st = false ->
  step st Submit = initial
  /\ delays (handle st Submit) = [2000]
  /\ toasts (handle st Submit)
     = [EmailPrepared (List.length (recipients st))
                      (List.length (attachedFiles st))]
  /\ reportsError (handle st Submit) = false
  /\ submitDisabled (step st Submit) = true.
Proof.
  unfold submitDisabled. intros H. apply orb_false_iff in H as [_ H].
  unfold step. cbn [handle]. unfold onSubmit. rewrite H.
  repeat split.
Qed.

Lemma submit_when_enabled_witness :
  step Sample.staged4 Submit = initial.
Proof.
  apply (submit_when_enabled Sample.staged4). reflexivity.
Defined.

(** X17. On the send path the loading flag is set before the delay begins:
    the effects of the handler up to the delay leave the submit button
    disabled, so no second submission can start while the first one
    waits. *)
Theorem submit_disabled_during_delay (st cur : state) :
  recipients st <> [] ->
  exists before later,
    onSubmit st = before ++ Delay 2000 :: later
    /\ delays before = []
    /\ submitDisabled (commit before cur) = true.
Proof.
  intros H. unfold onSubmit.
  destruct (recipients st) as [|x l]; [contradiction|].
  exists [SetIsLoading true; ConsoleLog]. eexists.
  split; [reflexivity|]. split; reflexivity.
Qed.

Lemma submit_disabled_during_delay_witness :
  exists before later,
    onSubmit (Sample.withRecipients ["a@x.com"]) = before ++ Delay 2000 :: later
    /\ delays before = []
    /\ submitDisabled (commit before initial) = true.
Proof.
  apply (submit_disabled_during_delay (Sample.withRecipients ["a@x.com"]) initial).
  discriminate.
Defined.

End Staging.

(** ** Independence of the two panels, letter case in an import *)

Section Independence.

Import ContactForm.

(** X18. The recipients panel and the attachments panel do not interfere:
    adding, removing, clearing and importing recipients leave the staged
    files and the loading flag as they were, and attaching or removing a
    file leaves the recipient list and the loading flag as they were. *)
Theorem panels_do_not_interfere (st : state) (ev : event) :
  match ev with
  | Add _ | Remove _ | ClearAll | ClearAllProp | ExcelImport _ =>
      attachedFiles (step st ev) = attachedFiles st
      /\ isLoading (step st ev) = isLoading st
  | FileAttach _ | RemoveFile _ =>
      recipients (step st ev) = recipients st
      /\ isLoading (step st ev) = isLoading st
  | Submit => True
  end.
Proof.
  destruct ev as [input|email| | |upload|files|index|]; unfold step;
    cbn [handle]; try apply lift_frame; try (now split).
  unfold handleFileAttach.
  destruct (maxFiles <? _); [now split|].
  rewrite commit_app, commit_toasts_only. now split.
Qed.

(** X19. Within one import, candidates that differ only in letter case (or
    in anything else that trimming and lower-casing remove) are one
    address: once the first has been classified as new or as duplicate,
    classifying the second changes nothing. *)
Theorem case_variants_counted_once (recipients : list string)
  (acc : RecipientsManager.importState) (m1 m2 : string) :
  Js.toLowerCase (Js.trim m2) = Js.toLowerCase (Js.trim m1) ->
  RecipientsManager.validateEmail (Js.toLowerCase (Js.trim m1)) = true ->
  RecipientsManager.classify recipients
    (RecipientsManager.classify recipients acc m1) m2
  = RecipientsManager.classify recipients acc m1.
Proof.
  intros Hn Hv. apply classify_id.
  pose proof (classify_seen recipients acc m1) as Hs.
  unfold Scan.seen in *. cbv zeta in *. rewrite Hn. rewrite Hv in *.
  exact Hs.
Qed.

Lemma case_variants_counted_once_witness :
  RecipientsManager.classify []
    (RecipientsManager.classify [] RecipientsManager.emptyImport "a@x.com")
    "A@X.COM"
  = RecipientsManager.classify [] RecipientsManager.emptyImport "a@x.com".
Proof.
  apply (case_variants_counted_once [] RecipientsManager.emptyImport
           "a@x.com" "A@X.COM"); reflexivity.
Defined.

End Independence.
